(** * enviro: a Munin plugin reporting environmental sensor data

    A shallow embedding of [enviro.py].  The script is sequential glue:
    sensor reads, a sliding-window sampler, two calibration formulas and
    text output in three invocation modes.

    Conventions of the embedding.
    - Python floats are read twice.  The plugin as a whole is embedded
      over exact rationals ([Q], with [==] equality of rationals as
      numbers): this reading fixes which driver calls are made, which
      values enter which formula and what is printed.  The arithmetic
      itself, [avg], [sample] and the two calibration formulas, is embedded
      again in module [Binary64] over IEEE 754 binary64, the arithmetic
      the interpreter performs; statements about exact results are checked
      against that module.
    - Effects (sensor reads, [time.sleep], [print], uncaught exceptions)
      live in a state-and-exception monad [M] over a [World] that records
      the trace of hardware events and the lines written to stdout.
    - The value a driver call returns is given by an oracle, [Hardware]:
      the k-th call of an operation returns the k-th element of its stream.
    - Dictionaries are [gmap string Q]. *)

From Stdlib Require Import QArith Qround Qabs Qminmax Lqa.
From Stdlib Require Floats Uint63.
From stdpp Require Import base strings gmap list pretty.

Local Open Scope Q_scope.

(** ** Exceptions, world and monad *)

Inductive exn : Type :=
  | KeyError (key : string)
  | ZeroDivisionError.

Inductive result (A : Type) : Type :=
  | Ok (a : A)
  | Raise (e : exn).
Arguments Ok {A} a.
Arguments Raise {A} e.

(** Driver objects built at module level. *)
Inductive device : Type := SMBus1 | BME280 | LTR559 | Noise.

(** Read operations of the drivers and of the thermal-zone file. *)
Inductive sensor_op : Type :=
  | ThermalZone0
  | UpdateSensor
  | GetTemperature
  | GetHumidity
  | GetPressure
  | GetAltitude
  | GetLux
  | ReadAll
  | GetNoiseProfile.

Inductive event : Type :=
  | Init (d : device)
  | Call (op : sensor_op)
  | Sleep (seconds : Q).

Record World : Type := mkWorld {
  trace : list event;
  stdout : list string
}.

Definition start : World := mkWorld [] [].

Definition M (A : Type) : Type := World -> result A * World.

#[global] Instance M_ret : MRet M := fun A a w => (Ok a, w).

#[global] Instance M_bind : MBind M := fun A B k m w =>
  match m w with
  | (Ok a, w') => k a w'
  | (Raise e, w') => (Raise e, w')
  end.

Definition raise {A : Type} (e : exn) : M A := fun w => (Raise e, w).

Definition emit (e : event) : M unit :=
  fun w => (Ok tt, mkWorld (trace w ++ [e]) (stdout w)).

Definition print (line : string) : M unit :=
  fun w => (Ok tt, mkWorld (trace w) (stdout w ++ [line])).

Definition time_sleep (seconds : Q) : M unit := emit (Sleep seconds).

(** [for i in range(n): body], the loop variable being unused throughout. *)
Fixpoint for_range {St : Type} (n : nat) (body : St -> M St) (s : St) : M St :=
  match n with
  | O => mret s
  | S n' => s' ← body s; for_range n' body s'
  end.

(** ** Sensor oracle *)

Definition is_call (op : sensor_op) (e : event) : bool :=
  match e with
  | Call op' =>
      match op, op' with
      | ThermalZone0, ThermalZone0 | UpdateSensor, UpdateSensor
      | GetTemperature, GetTemperature | GetHumidity, GetHumidity
      | GetPressure, GetPressure | GetAltitude, GetAltitude
      | GetLux, GetLux | ReadAll, ReadAll
      | GetNoiseProfile, GetNoiseProfile => true
      | _, _ => false
      end
  | _ => false
  end.

Definition is_sensing (e : event) : bool :=
  match e with Call _ => true | _ => false end.

Fixpoint count_calls (op : sensor_op) (t : list event) : nat :=
  match t with
  | [] => 0
  | e :: t' => (if is_call op e then 1 else 0) + count_calls op t'
  end.

Definition calls (op : sensor_op) (w : World) : nat := count_calls op (trace w).

(** The k-th invocation of [op] yields [stream k]. *)
Definition call {A : Type} (op : sensor_op) (stream : nat -> A) : M A :=
  fun w => (Ok (stream (calls op w)), mkWorld (trace w ++ [Call op]) (stdout w)).

Record gas_reading : Type := mkGas {
  oxidising : Q;
  reducing : Q;
  nh3 : Q
}.

Record Hardware : Type := mkHardware {
  thermal_zone0 : nat -> Z;
  temperature_stream : nat -> Q;
  humidity_stream : nat -> Q;
  pressure_stream : nat -> Q;
  altitude_stream : nat -> Q;
  lux_stream : nat -> Q;
  gas_stream : nat -> gas_reading;
  noise_stream : nat -> Q * Q * Q * Q
}.

(** ** Calibration *)

(** The two formulas over exact rationals; [Binary64.correct_temperature]
    and [Binary64.correct_humidity] are the same formulas in binary64. *)

Definition correct_temperature (temperature cpu_temperature : Q) : Q :=
  temperature - ((cpu_temperature - temperature) / 2.25).

(** Python's two-argument [min(a, b)]: [b] when [b < a], otherwise [a]. *)
Definition py_min (a b : Q) : Q :=
  match b ?= a with
  | Lt => b
  | _ => a
  end.

Definition correct_humidity (humidity temperature corr_temperature : Q) : Q :=
  let dewpoint := temperature - ((100 - humidity) / 5) in
  let corr_humidity := 100 - (5 * (corr_temperature - dewpoint)) in
  py_min 100 corr_humidity.

(** ** Sampler *)

(** [sum(values)]: left-to-right accumulation from 0, here without
    rounding; [Binary64.sum] rounds after every addition. *)
Definition sum (values : list Q) : Q := fold_left Qplus values 0.

(** [sum(values) / float(len(values))]; the empty list divides by zero. *)
Definition avg (values : list Q) : M Q :=
  match values with
  | [] => raise ZeroDivisionError
  | _ :: _ => mret (sum values / inject_Z (Z.of_nat (length values)))
  end.

(** [values[1:] + [v]] *)
Definition slide (values : list Q) (v : Q) : list Q := tail values ++ [v].

Section Sampler.
Variable samples : nat.

Definition sample (func : M Q) : M Q :=
  v0 ← func;
  values ← for_range samples
              (fun values => time_sleep 0.1;; v ← func; mret (slide values v))
              (replicate samples v0);
  avg values.
End Sampler.

(** ** Text formatting *)

(** Nearest integer, ties to the even neighbour. *)
Definition round_half_even (q : Q) : Z :=
  let f := Qfloor q in
  match Qcompare (q - inject_Z f) (1 # 2) with
  | Lt => f
  | Gt => (f + 1)%Z
  | Eq => if Z.even f then f else (f + 1)%Z
  end.

(** The decimal digit [d], for [0 <= d < 10]. *)
Definition digit (d : Z) : Ascii.ascii := Ascii.ascii_of_N (48 + Z.to_N d).

(** The [n] low-order decimal digits of [r], most significant first. *)
Fixpoint decimals (n : nat) (r : Z) : string :=
  match n with
  | O => ""
  | S n' => decimals n' (r `div` 10)%Z +:+ String (digit (r `mod` 10)%Z) ""
  end.

(** The format specification [{:.8f}]: sign, integer part, a point and
    eight decimals, the value rounded half-even to a multiple of 1e-8. *)
Definition format_8f (x : Q) : string :=
  let scaled := round_half_even (Qabs x * 100000000) in
  let sign := match x ?= 0 with Lt => "-" | _ => "" end in
  sign +:+ pretty (scaled `div` 100000000)%Z +:+ "."
       +:+ decimals 8 (scaled `mod` 100000000)%Z.

(** ** Dictionaries *)

(** A dict display [{k1: v1, ...}]: entries are stored left to right. *)
Definition dict (entries : list (string * Q)) : gmap string Q :=
  foldl (fun d kv => <[kv.1 := kv.2]> d) ∅ entries.

(** [data.update(other)] *)
Definition update (data other : gmap string Q) : gmap string Q := other ∪ data.

(** [data[key]] *)
Definition getitem (data : gmap string Q) (key : string) : M Q :=
  match data !! key with
  | Some v => mret v
  | None => raise (KeyError key)
  end.

(** ** The plugin *)

Section Plugin.
Variable samples : nat.
Variable hw : Hardware.
(** [os.environ] *)
Variable environ : gmap string string.
(** Whether [from ltr559 import LTR559] succeeds. *)
Variable ltr559_has_class : bool.

(** Module-level statements executed before the mode dispatch. *)
Definition module_init : M unit :=
  (if ltr559_has_class then emit (Init LTR559) else mret tt);;
  emit (Init SMBus1);;
  emit (Init BME280);;
  emit (Init Noise).

Definition get_cpu_temperature : M Q :=
  temp ← call ThermalZone0 (thermal_zone0 hw);
  mret (inject_Z temp / 1000).

Definition bme280_update_sensor : M unit := call UpdateSensor (fun _ => tt).
Definition bme280_get_temperature : M Q := call GetTemperature (temperature_stream hw).
Definition bme280_get_humidity : M Q := call GetHumidity (humidity_stream hw).
Definition bme280_get_pressure : M Q := call GetPressure (pressure_stream hw).
Definition bme280_get_altitude : M Q := call GetAltitude (altitude_stream hw).
Definition ltr559_get_lux : M Q := call GetLux (lux_stream hw).
Definition gas_read_all : M gas_reading := call ReadAll (gas_stream hw).
Definition noise_get_noise_profile : M (Q * Q * Q * Q) :=
  call GetNoiseProfile (noise_stream hw).

Definition read_init : M unit :=
  bme280_update_sensor;;
  ltr559_get_lux;;
  gas_read_all;;
  noise_get_noise_profile;;
  time_sleep 0.5.

Definition read_bme280 : M (gmap string Q) :=
  c0 ← get_cpu_temperature;
  t0 ← bme280_get_temperature;
  h0 ← bme280_get_humidity;
  '(cpu_temps, raw_temps, raw_humids) ←
    for_range samples
      (fun '(cpu_temps, raw_temps, raw_humids) =>
         time_sleep 0.1;;
         c ← get_cpu_temperature;
         t ← bme280_get_temperature;
         h ← bme280_get_humidity;
         mret (slide cpu_temps c, slide raw_temps t, slide raw_humids h))
      (replicate samples c0, replicate samples t0, replicate samples h0);
  cpu_temp ← avg cpu_temps;
  temp ← avg raw_temps;
  humid ← avg raw_humids;
  let temp_corr := correct_temperature temp cpu_temp in
  let humid_corr := correct_humidity humid temp temp_corr in
  pressure ← sample samples bme280_get_pressure;
  altitude ← sample samples bme280_get_altitude;
  mret (dict [("temperature", temp_corr);
              ("humidity", humid_corr);
              ("pressure", pressure);
              ("altitude", altitude);
              ("cpu_temperature", cpu_temp);
              ("raw_temperature", temp);
              ("raw_humidity", humid)]%string).

Definition read_ltr559 : M (gmap string Q) :=
  light ← sample samples ltr559_get_lux;
  mret (dict [("light", light)]%string).

Definition read_gas : M (gmap string Q) :=
  gas_read_all;;
  time_sleep 0.2;;
  data ← gas_read_all;
  '(ox, re, nh) ←
    for_range samples
      (fun '(ox, re, nh) =>
         time_sleep 0.1;;
         data ← gas_read_all;
         mret (slide ox (oxidising data / 1000),
               slide re (reducing data / 1000),
               slide nh (nh3 data / 1000)))
      (replicate samples (oxidising data / 1000),
       replicate samples (reducing data / 1000),
       replicate samples (nh3 data / 1000));
  oxidising ← avg ox;
  reducing ← avg re;
  nh3 ← avg nh;
  mret (dict [("oxidising", oxidising);
              ("reducing", reducing);
              ("nh3", nh3)]%string).

Definition read_noise : M (gmap string Q) :=
  '(low, mid, high, amp) ← noise_get_noise_profile;
  '(lows, mids, highs, amps) ←
    for_range samples
      (fun '(lows, mids, highs, amps) =>
         time_sleep 0.1;;
         '(low, mid, high, amp) ← noise_get_noise_profile;
         mret (slide lows low, slide mids mid, slide highs high, slide amps amp))
      (replicate samples low, replicate samples mid,
       replicate samples high, replicate samples amp);
  low ← avg lows;
  mid ← avg mids;
  high ← avg highs;
  amp ← avg amps;
  mret (dict [("low", low);
              ("mid", mid);
              ("high", high);
              ("amp", amp)]%string).

Definition print_graph (key : string) : M unit :=
  print ("multigraph enviro_" +:+ key).

Definition print_value (data : gmap string Q) (key : string) : M unit :=
  v ← getitem data key;
  print (key +:+ ".value " +:+ format_8f v).

Definition print_graph_value (data : gmap string Q) (key : string) : M unit :=
  print_graph key;;
  print_value data key;;
  print "".

Definition fetch : M unit :=
  read_init;;
  let data : gmap string Q := ∅ in
  d ← read_bme280; let data := update data d in
  d ← read_ltr559; let data := update data d in
  d ← read_gas; let data := update data d in
  d ← read_noise; let data := update data d in

  print_graph "temperature";;
  print_value data "temperature";;
  print_value data "raw_temperature";;
  print_value data "cpu_temperature";;
  print "";;

  print_graph "humidity";;
  print_value data "humidity";;
  print_value data "raw_humidity";;
  print "";;

  print_graph_value data "pressure";;

  print_graph_value data "altitude";;

  print_graph_value data "light";;

  print_graph "gas";;
  print_value data "oxidising";;
  print_value data "reducing";;
  print_value data "nh3";;
  print "";;

  print_graph "noise";;
  print_value data "low";;
  print_value data "mid";;
  print_value data "high";;
  print_value data "amp".

Definition print_graph_config (key title vlabel : string) (zero_limit : bool) : M unit :=
  print ("multigraph enviro_" +:+ key);;
  print ("graph_title " +:+ title);;
  print ("graph_vlabel " +:+ vlabel);;
  print "graph_category environment";;
  if zero_limit then
    print "graph_args --base 1000 --lower-limit 0"
  else
    print "graph_args --base 1000".

(** The default of the keyword parameter [zero_limit]. *)
Definition zero_limit_default : bool := false.

Definition print_value_config (key title : string) : M unit :=
  print (key +:+ ".label " +:+ title).

Definition config : M unit :=
  print_graph_config "temperature" "Temperature" "C" zero_limit_default;;
  print_value_config "temperature" "Temperature";;
  print_value_config "raw_temperature" "Raw Temperature";;
  print_value_config "cpu_temperature" "CPU Temperature";;
  print "";;
  print_graph_config "humidity" "Humidity" "%RH" zero_limit_default;;
  print_value_config "humidity" "Humidity";;
  print_value_config "raw_humidity" "Raw Humidity";;
  print "";;
  print_graph_config "pressure" "Pressure" "hPa" zero_limit_default;;
  print_value_config "pressure" "Pressure";;
  print "";;
  print_graph_config "altitude" "Altitude" "m" zero_limit_default;;
  print_value_config "altitude" "Altitude";;
  print "";;
  print_graph_config "light" "Light" "Lux" zero_limit_default;;
  print_value_config "light" "Light";;
  print "";;
  print_graph_config "gas" "Gas" "kO" zero_limit_default;;
  print_value_config "oxidising" "Oxidising";;
  print_value_config "reducing" "Reducing";;
  print_value_config "nh3" "NH3";;
  print "";;
  print_graph_config "noise" "Noise" "amp" zero_limit_default;;
  print_value_config "low" "Low";;
  print_value_config "mid" "Mid";;
  print_value_config "high" "High";;
  print_value_config "amp" "Amp";;
  print "";;

  if bool_decide (environ !! "MUNIN_CAP_DIRTYCONFIG"%string = Some "1"%string) then
    fetch
  else
    mret tt.

(** The [if __name__ == '__main__'] block; [argv] is [sys.argv], whose
    element 0 is the script name. *)
Definition main (argv : list string) : M unit :=
  if bool_decide (1 < length argv)%nat && bool_decide (argv !! 1%nat = Some "autoconf"%string) then
    print "yes"
  else if bool_decide (1 < length argv)%nat && bool_decide (argv !! 1%nat = Some "config"%string) then
    config
  else
    fetch.

(** The whole script: module-level statements, the main block and the
    final [exit(0)].  An uncaught exception ends the process with
    status 1 before [exit(0)] is reached. *)
Definition script (argv : list string) (w : World) : Z * World :=
  match (module_init;; main argv) w with
  | (Ok _, w') => (0%Z, w')
  | (Raise _, w') => (1%Z, w')
  end.
End Plugin.

(** Number of samples to take per measurement. *)
Definition samples : nat := 10.

(** ** The arithmetic in binary64 *)

(** Python's [float] is IEEE 754 binary64 and every operation rounds to
    nearest, ties to even: the kernel's primitive floats.  The integer
    operands of the source ([100], [5], [len(values)], the initial [0] of
    [sum]) are converted to floats before the operation, exactly. *)
Module Binary64.
Import PrimFloat.
Local Open Scope float_scope.

(** [float(n)] for a list length [n]. *)
Definition float_of_nat (n : nat) : float := of_uint63 (Uint63.of_Z (Z.of_nat n)).

(** [sum(values)]: the accumulator starts at 0 and takes the values in
    list order, each addition rounded.  This is the builtin up to CPython
    3.11; from 3.12 on it carries a compensation term for floats, which
    can change the last digit of the sum and is not modelled. *)
Definition sum (values : list float) : float := fold_left add values 0.

(** [sum(values) / float(len(values))]; the empty list divides by zero. *)
Definition avg (values : list float) : M float :=
  match values with
  | [] => raise ZeroDivisionError
  | _ :: _ => mret (sum values / float_of_nat (length values))
  end.

(** [values[1:] + [v]] *)
Definition slide (values : list float) (v : float) : list float := tail values ++ [v].

Definition sample (samples : nat) (func : M float) : M float :=
  v0 ← func;
  values ← for_range samples
              (fun values => time_sleep 0.1%Q;; v ← func; mret (slide values v))
              (replicate samples v0);
  avg values.

Definition correct_temperature (temperature cpu_temperature : float) : float :=
  temperature - ((cpu_temperature - temperature) / 2.25).

(** Python's two-argument [min(a, b)]: [b] when [b < a], otherwise [a]. *)
Definition py_min (a b : float) : float := if b <? a then b else a.

Definition correct_humidity (humidity temperature corr_temperature : float) : float :=
  let dewpoint := temperature - ((100 - humidity) / 5) in
  let corr_humidity := 100 - (5 * (corr_temperature - dewpoint)) in
  py_min 100 corr_humidity.

(** Specification side: [n] reads, each preceded by the 100 ms delay. *)
Fixpoint delayed_reads (n : nat) (func : M float) : M (list float) :=
  match n with
  | O => mret []
  | S n' =>
      time_sleep 0.1%Q;;
      v ← func;
      vs ← delayed_reads n' func;
      mret (v :: vs)
  end.


(** The plain mean of a list, as the code computes it. *)
Definition mean (values : list float) : float :=
  sum values / float_of_nat (length values).


End Binary64.

(** * Vocabulary of the statements *)

(** ** Runs that succeed, and what they print *)

(** [emits m post]: from every world, [m] returns normally with a value
    [a], having appended lines [out] to stdout, and [post a out] holds. *)
Definition emits {A : Type} (m : M A) (post : A -> list string -> Prop) : Prop :=
  forall w, exists a w' out,
    m w = (Ok a, w') /\ stdout w' = stdout w ++ out /\ post a out.

(** [silent m P]: [m] returns normally, prints nothing, and its value
    satisfies [P]. *)
Definition silent {A : Type} (m : M A) (P : A -> Prop) : Prop :=
  emits m (fun a out => out = [] /\ P a).

(** ** The sampler *)

(** [n] reads, each preceded by the 100 ms delay. *)
Fixpoint delayed_reads (n : nat) (func : M Q) : M (list Q) :=
  match n with
  | O => mret []
  | S n' =>
      time_sleep 0.1;;
      v ← func;
      vs ← delayed_reads n' func;
      mret (v :: vs)
  end.



(** The events one measurement of [n] samples appends for operation [op]. *)
Fixpoint delayed_calls (n : nat) (op : sensor_op) : list event :=
  match n with
  | O => []
  | S n' => Sleep 0.1 :: Call op :: delayed_calls n' op
  end.

(** ** The two reports *)

(** The seven metric groups and their member keys, in emission order. *)
Definition groups : list (string * list string) :=
  [("temperature", ["temperature"; "raw_temperature"; "cpu_temperature"]);
   ("humidity", ["humidity"; "raw_humidity"]);
   ("pressure", ["pressure"]);
   ("altitude", ["altitude"]);
   ("light", ["light"]);
   ("gas", ["oxidising"; "reducing"; "nh3"]);
   ("noise", ["low"; "mid"; "high"; "amp"])]%string.

Definition metric_keys : list string := flat_map snd groups.

(** A reading set holds every metric. *)
Definition complete (data : gmap string Q) : Prop :=
  Forall (fun key => is_Some (data !! key)) metric_keys.

Definition reading (data : gmap string Q) (key : string) : Q :=
  default 0 (data !! key).

Definition header (key : string) : string := "multigraph enviro_" +:+ key.

Definition value_line (data : gmap string Q) (key : string) : string :=
  key +:+ ".value " +:+ format_8f (reading data key).

Definition value_block (data : gmap string Q) (g : string * list string) : list string :=
  header g.1 :: map (value_line data) g.2.

(** Blocks with a blank line between consecutive blocks. *)
Fixpoint separated (blocks : list (list string)) : list string :=
  match blocks with
  | [] => []
  | [b] => b
  | b :: bs => b ++ ""%string :: separated bs
  end.

(** Blocks with a blank line after every block. *)
Definition terminated (blocks : list (list string)) : list string :=
  flat_map (fun b => b ++ [""%string]) blocks.

Definition value_report (data : gmap string Q) : list string :=
  separated (map (value_block data) groups).

(** [line.startswith(needle)] *)
Fixpoint startswith (needle line : string) : bool :=
  match needle with
  | EmptyString => true
  | String a needle' =>
      match line with
      | EmptyString => false
      | String b line' => Ascii.eqb a b && startswith needle' line'
      end
  end.

Definition is_header (line : string) : bool := startswith "multigraph " line.

(** Config-mode groups: key, title, unit label, and the members with their
    human-readable titles. *)
Definition config_groups : list (string * string * string * list (string * string)) :=
  [("temperature", "Temperature", "C",
      [("temperature", "Temperature");
       ("raw_temperature", "Raw Temperature");
       ("cpu_temperature", "CPU Temperature")]);
   ("humidity", "Humidity", "%RH",
      [("humidity", "Humidity"); ("raw_humidity", "Raw Humidity")]);
   ("pressure", "Pressure", "hPa", [("pressure", "Pressure")]);
   ("altitude", "Altitude", "m", [("altitude", "Altitude")]);
   ("light", "Light", "Lux", [("light", "Light")]);
   ("gas", "Gas", "kO",
      [("oxidising", "Oxidising"); ("reducing", "Reducing"); ("nh3", "NH3")]);
   ("noise", "Noise", "amp",
      [("low", "Low"); ("mid", "Mid"); ("high", "High"); ("amp", "Amp")])]%string.

Definition base_1000 : string := "graph_args --base 1000".
Definition base_1000_lower_limit_0 : string := "graph_args --base 1000 --lower-limit 0".

Definition label_line (member : string * string) : string :=
  member.1 +:+ ".label " +:+ member.2.

(** One group's config block, with [graph_args] as its scaling directive. *)
Definition config_block (graph_args : string)
    (g : string * string * string * list (string * string)) : list string :=
  let '(key, title, vlabel, members) := g in
  [header key;
   "graph_title " +:+ title;
   "graph_vlabel " +:+ vlabel;
   "graph_category environment";
   graph_args]%string ++ map label_line members.

Definition config_report (graph_args : string) : list string :=
  terminated (map (config_block graph_args) config_groups).

Definition is_graph_args (line : string) : bool := startswith "graph_args" line.

(** [needle in line] *)
Fixpoint contains (needle line : string) : bool :=
  startswith needle line ||
  match line with
  | EmptyString => false
  | String _ rest => contains needle rest
  end.

Definition is_value_line (line : string) : bool := contains ".value " line.

Definition dirtyconfig (environ : gmap string string) : bool :=
  bool_decide (environ !! "MUNIN_CAP_DIRTYCONFIG"%string = Some "1"%string).

(** The three invocation modes and their selection by [sys.argv[1]]. *)
Inductive mode : Type := Autoconf | Config | Report.

Definition mode_of (argv : list string) : mode :=
  if decide (argv !! 1%nat = Some "autoconf"%string) then Autoconf
  else if decide (argv !! 1%nat = Some "config"%string) then Config
  else Report.

(** What each mode runs. *)
Definition behaviour (N : nat) (hw : Hardware) (environ : gmap string string)
    (m : mode) : M unit :=
  match m with
  | Autoconf => print "yes"
  | Config => config N hw environ
  | Report => fetch N hw
  end.

(** Events of the module-level statements. *)
Definition init_trace (ltr559_has_class : bool) : list event :=
  (if ltr559_has_class then [Init LTR559] else []) ++ [Init SMBus1; Init BME280; Init Noise].

(** Exit status of a finished run. *)
Definition exit_status {A : Type} (r : result A * World) : Z * World :=
  match r with
  | (Ok _, w') => (0%Z, w')
  | (Raise _, w') => (1%Z, w')
  end.

(** A fixed test bench: every driver returns the same reading on each call. *)
Definition bench : Hardware :=
  mkHardware (fun _ => 45000%Z) (fun _ => 25) (fun _ => 40) (fun _ => 1013.25)
             (fun _ => 120.5) (fun _ => 300)
             (fun _ => mkGas 20000 300000 50000) (fun _ => (1, 2, 3, 4)).

(** A run of the plugin in a fresh process. *)
Definition run (hw : Hardware) (environ : gmap string string)
    (ltr559_has_class : bool) (argv : list string) : Z * World :=
  script samples hw environ ltr559_has_class argv start.

Definition status (r : Z * World) : Z := r.1.
Definition output (r : Z * World) : list string := stdout r.2.

(** ** Readings as functions of the hardware *)

(** The plain mean of a list. *)
Definition mean (values : list Q) : Q :=
  sum values / inject_Z (Z.of_nat (length values)).

(** The values a stream yields at the [n] calls that follow call number [k]. *)
Definition window {A : Type} (stream : nat -> A) (k n : nat) : list A :=
  map stream (seq (S k) n).

(** Two streams yield the same values at the [samples] calls numbered from
    [first] on. *)
Definition agree {A : Type} (first : nat) (f g : nat -> A) : Prop :=
  forall i, (first <= i < first + samples)%nat -> f i = g i.

(** The CPU temperature, in degrees, at each read of the thermal zone. *)
Definition cpu_stream (hw : Hardware) (i : nat) : Q :=
  inject_Z (thermal_zone0 hw i) / 1000.

(** [n] loop rounds, each a 100 ms delay followed by one call of each
    operation of [ops]. *)
Fixpoint rounds (n : nat) (ops : list sensor_op) : list event :=
  match n with
  | O => []
  | S n' => Sleep 0.1 :: map Call ops ++ rounds n' ops
  end.

(** Seconds spent in [time.sleep] along a trace. *)
Fixpoint total_sleep (t : list event) : Q :=
  match t with
  | [] => 0
  | Sleep seconds :: t' => seconds + total_sleep t'
  | _ :: t' => total_sleep t'
  end.

(** What [read_bme280] returns when entered in world [w]. *)
Definition bme280_readings (n : nat) (hw : Hardware) (w : World) : list (string * Q) :=
  let cpu_temp := mean (window (cpu_stream hw) (calls ThermalZone0 w) n) in
  let temp := mean (window (temperature_stream hw) (calls GetTemperature w) n) in
  let humid := mean (window (humidity_stream hw) (calls GetHumidity w) n) in
  let temp_corr := correct_temperature temp cpu_temp in
  [("temperature", temp_corr);
   ("humidity", correct_humidity humid temp temp_corr);
   ("pressure", mean (window (pressure_stream hw) (calls GetPressure w) n));
   ("altitude", mean (window (altitude_stream hw) (calls GetAltitude w) n));
   ("cpu_temperature", cpu_temp);
   ("raw_temperature", temp);
   ("raw_humidity", humid)]%string.

Definition bme280_trace (n : nat) : list event :=
  [Call ThermalZone0; Call GetTemperature; Call GetHumidity]
  ++ rounds n [ThermalZone0; GetTemperature; GetHumidity]
  ++ Call GetPressure :: delayed_calls n GetPressure
  ++ Call GetAltitude :: delayed_calls n GetAltitude.

(** What [read_ltr559] returns when entered in world [w]. *)
Definition ltr559_readings (n : nat) (hw : Hardware) (w : World) : list (string * Q) :=
  [("light", mean (window (lux_stream hw) (calls GetLux w) n))]%string.

(** What [read_gas] returns when entered in world [w]: the first driver
    reading is dropped, the second pre-fills the windows. *)
Definition gas_readings (n : nat) (hw : Hardware) (w : World) : list (string * Q) :=
  let k := S (calls ReadAll w) in
  [("oxidising", mean (window (fun i => oxidising (gas_stream hw i) / 1000) k n));
   ("reducing", mean (window (fun i => reducing (gas_stream hw i) / 1000) k n));
   ("nh3", mean (window (fun i => nh3 (gas_stream hw i) / 1000) k n))]%string.

Definition gas_trace (n : nat) : list event :=
  [Call ReadAll; Sleep 0.2; Call ReadAll] ++ rounds n [ReadAll].

(** What [read_noise] returns when entered in world [w]. *)
Definition noise_readings (n : nat) (hw : Hardware) (w : World) : list (string * Q) :=
  let k := calls GetNoiseProfile w in
  [("low", mean (window (fun i => (noise_stream hw i).1.1.1) k n));
   ("mid", mean (window (fun i => (noise_stream hw i).1.1.2) k n));
   ("high", mean (window (fun i => (noise_stream hw i).1.2) k n));
   ("amp", mean (window (fun i => (noise_stream hw i).2) k n))]%string.

Definition init_calls : list event :=
  [Call UpdateSensor; Call GetLux; Call ReadAll; Call GetNoiseProfile; Sleep 0.5].

(** The events of one value-report pass. *)
Definition fetch_trace (n : nat) : list event :=
  init_calls
  ++ bme280_trace n
  ++ Call GetLux :: delayed_calls n GetLux
  ++ gas_trace n
  ++ Call GetNoiseProfile :: rounds n [GetNoiseProfile].

(** The world in which the reads of a pass start: [read_init] has run. *)
Definition after_init (w : World) : World :=
  mkWorld (trace w ++ init_calls) (stdout w).

(** The reading set of a value-report pass entered in world [w]. *)
Definition fetch_readings (n : nat) (hw : Hardware) (w : World) : list (string * Q) :=
  bme280_readings n hw (after_init w)
  ++ ltr559_readings n hw (after_init w)
  ++ gas_readings n hw (after_init w)
  ++ noise_readings n hw (after_init w).

(** ** Field names *)

Definition is_label_line (line : string) : bool := contains ".label " line.

(** The text of a line before its first point. *)
Fixpoint field_name (line : string) : string :=
  match line with
  | EmptyString => ""
  | String c rest =>
      if String.eqb (String c "") "." then "" else String c (field_name rest)
  end.

(** * Verification *)

(** ** Monadic runs *)

Lemma bind_ok {A B : Type} (m : M A) (k : A -> M B) (w w' : World) (a : A) :
  m w = (Ok a, w') -> (m ≫= k) w = k a w'.
Proof. intros H. unfold mbind, M_bind. now rewrite H. Qed.

Lemma bind_raise {A B : Type} (m : M A) (k : A -> M B) (w w' : World) (e : exn) :
  m w = (Raise e, w') -> (m ≫= k) w = (Raise e, w').
Proof. intros H. unfold mbind, M_bind. now rewrite H. Qed.

Lemma emits_ret {A : Type} (a : A) (post : A -> list string -> Prop) :
  post a [] -> emits (mret a) post.
Proof.
  intros H w. exists a, w, []. rewrite app_nil_r. now repeat split.
Qed.

Lemma emits_bind {A B : Type} (m : M A) (k : A -> M B)
    (P : A -> list string -> Prop) (post : B -> list string -> Prop) :
  emits m P ->
  (forall a out1, P a out1 -> emits (k a) (fun b out2 => post b (out1 ++ out2))) ->
  emits (m ≫= k) post.
Proof.
  intros Hm Hk w.
  destruct (Hm w) as (a & w1 & out1 & Hrun & Hout & HP).
  destruct (Hk a out1 HP w1) as (b & w2 & out2 & Hrun2 & Hout2 & Hpost).
  exists b, w2, (out1 ++ out2).
  rewrite (bind_ok _ _ _ _ _ Hrun), Hout2, Hout, app_assoc. now repeat split.
Qed.

Lemma emits_weaken {A : Type} (m : M A) (P post : A -> list string -> Prop) :
  emits m P -> (forall a out, P a out -> post a out) -> emits m post.
Proof.
  intros Hm Himp w. destruct (Hm w) as (a & w' & out & ? & ? & ?).
  exists a, w', out. auto.
Qed.

Lemma emits_print (line : string) (post : unit -> list string -> Prop) :
  post tt [line] -> emits (print line) post.
Proof. intros H w. exists tt, (mkWorld (trace w) (stdout w ++ [line])), [line]. auto. Qed.

Lemma silent_ret {A : Type} (a : A) (P : A -> Prop) : P a -> silent (mret a) P.
Proof. intros H. apply emits_ret. auto. Qed.

Lemma silent_bind {A B : Type} (m : M A) (k : A -> M B) (P : A -> Prop) (R : B -> Prop) :
  silent m P -> (forall a, P a -> silent (k a) R) -> silent (m ≫= k) R.
Proof.
  intros Hm Hk. eapply emits_bind; [exact Hm |].
  intros a out1 [-> Ha]. exact (Hk a Ha).
Qed.

Lemma silent_weaken {A : Type} (m : M A) (P R : A -> Prop) :
  silent m P -> (forall a, P a -> R a) -> silent m R.
Proof.
  intros Hm Himp. eapply emits_weaken; [exact Hm |]. intros a out [? ?]. auto.
Qed.

Lemma silent_emit (e : event) : silent (emit e) (fun _ => True).
Proof.
  intros w. exists tt, (mkWorld (trace w ++ [e]) (stdout w)), [].
  cbn. rewrite app_nil_r. auto.
Qed.

Lemma silent_sleep (seconds : Q) : silent (time_sleep seconds) (fun _ => True).
Proof. apply silent_emit. Qed.

Lemma silent_call {A : Type} (op : sensor_op) (stream : nat -> A) :
  silent (call op stream) (fun _ => True).
Proof.
  intros w. exists (stream (calls op w)), (mkWorld (trace w ++ [Call op]) (stdout w)), [].
  cbn. rewrite app_nil_r. auto.
Qed.

Lemma silent_for_range {St : Type} (Inv : St -> Prop) (body : St -> M St) (n : nat) :
  (forall s, Inv s -> silent (body s) Inv) ->
  forall s, Inv s -> silent (for_range n body s) Inv.
Proof.
  intros Hbody. induction n as [| n IH]; intros s Hs; cbn [for_range].
  - now apply silent_ret.
  - eapply silent_bind; [exact (Hbody s Hs) |]. exact IH.
Qed.

Lemma silent_avg (values : list Q) :
  values <> [] -> silent (avg values) (fun _ => True).
Proof.
  destruct values as [| v values]; [congruence |]. intros _.
  unfold avg. now apply silent_ret.
Qed.

Lemma length_slide (values : list Q) (v : Q) :
  values <> [] -> length (slide values v) = length values.
Proof.
  destruct values as [| x values]; [congruence |]. intros _.
  unfold slide. cbn. rewrite length_app. cbn. lia.
Qed.

Lemma window_nonempty (n : nat) (values : list Q) :
  (1 <= n)%nat -> length values = n -> values <> [].
Proof. intros Hn Hlen ->. cbn in Hlen. lia. Qed.

Lemma run_bind {A B : Type} (m : M A) (k : A -> M B) (w : World) :
  (m ≫= k) w =
  match m w with
  | (Ok a, w') => k a w'
  | (Raise e, w') => (Raise e, w')
  end.
Proof. reflexivity. Qed.

Lemma run_ret {A : Type} (a : A) (w : World) : (mret a : M A) w = (Ok a, w).
Proof. reflexivity. Qed.

Lemma run_sleep (seconds : Q) (w : World) :
  time_sleep seconds w = (Ok tt, mkWorld (trace w ++ [Sleep seconds]) (stdout w)).
Proof. reflexivity. Qed.

Ltac run :=
  repeat first [rewrite run_ret | rewrite run_sleep | rewrite run_bind | progress cbn beta iota].

Lemma sample_window (n : nat) (func : M Q) :
  forall (values : list Q) (w : World),
    (n <= length values)%nat ->
    for_range n (fun values => time_sleep 0.1;; v ← func; mret (slide values v)) values w
    = (vs ← delayed_reads n func; mret (drop n values ++ vs)) w.
Proof.
  induction n as [| n IH]; intros values w Hlen.
  - cbn [for_range delayed_reads]. run.
    cbn [drop]. now rewrite app_nil_r.
  - destruct values as [| x values]; [cbn in Hlen; lia |].
    cbn [for_range delayed_reads]. run.
    destruct (func _) as [[v | e] w2]; [| reflexivity]. run.
    rewrite IH.
    + run. destruct (delayed_reads n func w2) as [[vs | e] w3]; [| reflexivity]. run.
      unfold slide. cbn [tail drop].
      rewrite drop_app_le by (cbn in Hlen; lia).
      now rewrite <- app_assoc.
    + unfold slide. cbn [tail]. rewrite length_app. cbn in *. lia.
Qed.

Lemma sample_unfold (n : nat) (func : M Q) (w : World) :
  sample n func w = (func;; vs ← delayed_reads n func; avg vs) w.
Proof.
  unfold sample. run.
  destruct (func w) as [[v0 | e] w1]; [| reflexivity]. run.
  rewrite sample_window by now rewrite length_replicate.
  run.
  destruct (delayed_reads n func w1) as [[vs | e] w2]; [| reflexivity]. run.
  rewrite drop_ge by now rewrite length_replicate.
  reflexivity.
Qed.


(** *** Arithmetic of the mean *)




(** *** Reads backed by a driver stream *)

Lemma count_calls_app (op : sensor_op) (t1 t2 : list event) :
  count_calls op (t1 ++ t2) = (count_calls op t1 + count_calls op t2)%nat.
Proof.
  induction t1 as [| e t1 IH]; cbn [app count_calls]; [reflexivity |].
  rewrite IH. lia.
Qed.

Lemma is_call_refl (op : sensor_op) : is_call op (Call op) = true.
Proof. now destruct op. Qed.

Lemma count_delayed_calls (n : nat) (op : sensor_op) :
  count_calls op (delayed_calls n op) = n.
Proof.
  induction n as [| n IH]; cbn [delayed_calls count_calls]; [reflexivity |].
  rewrite is_call_refl, IH. reflexivity.
Qed.

Lemma run_call {A : Type} (op : sensor_op) (stream : nat -> A) (w : World) :
  call op stream w = (Ok (stream (calls op w)), mkWorld (trace w ++ [Call op]) (stdout w)).
Proof. reflexivity. Qed.

Lemma count_calls_sleep (op : sensor_op) (t : list event) (seconds : Q) :
  count_calls op (t ++ [Sleep seconds]) = count_calls op t.
Proof. rewrite count_calls_app. cbn. lia. Qed.

Lemma count_calls_call (op : sensor_op) (t : list event) :
  count_calls op (t ++ [Call op]) = S (count_calls op t).
Proof. rewrite count_calls_app. cbn [count_calls]. rewrite is_call_refl. lia. Qed.

Lemma delayed_reads_call (n : nat) (op : sensor_op) (g : nat -> Q) :
  forall w,
    delayed_reads n (call op g) w
    = (Ok (map g (seq (calls op w) n)),
       mkWorld (trace w ++ delayed_calls n op) (stdout w)).
Proof.
  induction n as [| n IH]; intros w; cbn [delayed_reads delayed_calls]; run.
  - rewrite app_nil_r. now destruct w.
  - rewrite run_call. run. rewrite IH. run.
    unfold calls. cbn [trace stdout].
    rewrite count_calls_call, count_calls_sleep.
    cbn [seq map]. now rewrite <- !app_assoc.
Qed.

Lemma sample_call (n : nat) (op : sensor_op) (g : nat -> Q) (w : World) :
  sample n (call op g) w
  = (avg (map g (seq (S (calls op w)) n)))
      (mkWorld (trace w ++ Call op :: delayed_calls n op) (stdout w)).
Proof.
  rewrite sample_unfold. run. rewrite run_call. run. rewrite delayed_reads_call. run.
  unfold calls. cbn [trace stdout]. rewrite count_calls_call.
  now rewrite <- app_assoc.
Qed.

Lemma avg_nonempty (values : list Q) (w : World) :
  values <> [] ->
  avg values w = (Ok (sum values / inject_Z (Z.of_nat (length values))), w).
Proof. destruct values; [congruence | reflexivity]. Qed.

Lemma seq_nonempty (g : nat -> Q) (k n : nat) : (1 <= n)%nat -> map g (seq k n) <> [].
Proof. destruct n; [lia | discriminate]. Qed.

Lemma inject_nat_succ (n : nat) :
  inject_Z (Z.of_nat (S n)) == inject_Z (Z.of_nat n) + 1.
Proof. rewrite Nat2Z.inj_succ. unfold Z.succ. now rewrite inject_Z_plus. Qed.



(** *** The sampler in binary64 *)










Section SamplerClaim.
Import PrimFloat.
#[local] Set Warnings "-inexact-float".




End SamplerClaim.

(** C9. For [N >= 1], [sample] invokes the read operation exactly [N + 1]
    times, one pre-fill call and one call per loop iteration, and returns
    the mean of the last [N] values: the pre-fill value has left the window
    and a stream that differs only outside the last [N] calls yields the
    same run. *)
Theorem sample_call_count (N : nat) (op : sensor_op) (g : nat -> Q) (w : World) :
  (1 <= N)%nat ->
  exists q w',
    sample N (call op g) w = (Ok q, w') /\
    trace w' = trace w ++ Call op :: delayed_calls N op /\
    calls op w' = (calls op w + (N + 1))%nat /\
    q = sum (map g (seq (S (calls op w)) N)) / inject_Z (Z.of_nat N) /\
    forall g' : nat -> Q,
      (forall i, (calls op w < i <= calls op w + N)%nat -> g' i = g i) ->
      sample N (call op g') w = (Ok q, w').
Proof.
  intros HN. eexists _, _. split; [| split; [| split; [| split]]].
  - rewrite sample_call, avg_nonempty by now apply seq_nonempty. reflexivity.
  - reflexivity.
  - unfold calls. cbn [trace]. rewrite count_calls_app. cbn [count_calls].
    rewrite is_call_refl, count_delayed_calls. lia.
  - now rewrite length_map, length_seq.
  - intros g' Hg'. rewrite sample_call.
    replace (map g' (seq (S (calls op w)) N)) with (map g (seq (S (calls op w)) N)).
    + now rewrite avg_nonempty by now apply seq_nonempty.
    + apply map_ext_in. intros i Hi. apply in_seq in Hi. symmetry. apply Hg'. lia.
Qed.

Lemma sample_call_count_witness :
  exists q w',
    sample 2 (call GetPressure (fun k => inject_Z (Z.of_nat k))) start = (Ok q, w') /\
    trace w' = trace start ++ Call GetPressure :: delayed_calls 2 GetPressure /\
    calls GetPressure w' = (calls GetPressure start + (2 + 1))%nat /\
    q = sum (map (fun k => inject_Z (Z.of_nat k)) (seq (S (calls GetPressure start)) 2))
        / inject_Z (Z.of_nat 2) /\
    forall g' : nat -> Q,
      (forall i, (calls GetPressure start < i <= calls GetPressure start + 2)%nat ->
                 g' i = inject_Z (Z.of_nat i)) ->
      sample 2 (call GetPressure g') start = (Ok q, w').
Proof.
  apply (sample_call_count 2 GetPressure (fun k => inject_Z (Z.of_nat k)) start). lia.
Defined.

(** ** Calibration *)

Lemma py_min_Qmin (a b : Q) : py_min a b = Qmin a b.
Proof.
  unfold py_min, Qmin, GenericMinMax.gmin.
  rewrite <- (Qcompare_antisym a b). now destruct (a ?= b).
Qed.

Lemma py_min_le_l (a b : Q) : py_min a b <= a.
Proof. rewrite py_min_Qmin. apply Q.le_min_l. Qed.


(** C3. [correct_humidity] computes the dewpoint
    [D = T_raw - (100 - H_raw) / 5], then [100 - 5 * (T_corr - D)] clamped
    to at most 100: the result never exceeds 100, it is 100 at
    (100, 20, 20), and nothing bounds it from below. *)
Theorem correct_humidity_clamped :
  (forall H_raw T_raw T_corr,
     let D := T_raw - (100 - H_raw) / 5 in
     correct_humidity H_raw T_raw T_corr = Qmin 100 (100 - 5 * (T_corr - D))) /\
  (forall H_raw T_raw T_corr, correct_humidity H_raw T_raw T_corr <= 100) /\
  correct_humidity 100 20 20 = 100 /\
  (forall floor : Q, exists H_raw T_raw T_corr,
     correct_humidity H_raw T_raw T_corr < floor).
Proof.
  split; [| split; [| split]].
  - intros H_raw T_raw T_corr D. unfold correct_humidity. apply py_min_Qmin.
  - intros H_raw T_raw T_corr. unfold correct_humidity. apply py_min_le_l.
  - reflexivity.
  - intros floor. exists 100, 0, (21 - floor / 5).
    unfold correct_humidity. rewrite py_min_Qmin.
    eapply Qle_lt_trans; [apply Q.le_min_r |].
    field_simplify. lra.
Qed.

Section HumidityClaim.
Import PrimFloat.
#[local] Set Warnings "-inexact-float".

(** C10, as the code has it.  In exact arithmetic
    [correct_humidity H_raw T_raw T_corr] is
    [min(100, H_raw + 5 * (T_raw - T_corr))], and with [T_corr = T_raw] it
    is [min(100, H_raw)].  The code evaluates
    [min(100, 100 - 5 * (T_corr - (T_raw - (100 - H_raw) / 5)))] in
    binary64, rounding after each of the five operations, so its result
    can differ from the closed form; where no operation rounds, as on
    (50, 20, 100), the two agree.  Some inputs give a strictly negative
    result: (50, 20, 100) gives -350. *)
Theorem correct_humidity_closed_form :
  (forall H_raw T_raw T_corr : Q,
     correct_humidity H_raw T_raw T_corr == Qmin 100 (H_raw + 5 * (T_raw - T_corr))) /\
  (forall H_raw T_raw : Q, correct_humidity H_raw T_raw T_raw == Qmin 100 H_raw) /\
  (forall H_raw T_raw T_corr : float,
     Binary64.correct_humidity H_raw T_raw T_corr
     = Binary64.py_min 100 (100 - 5 * (T_corr - (T_raw - (100 - H_raw) / 5)))%float) /\
  Binary64.correct_humidity 50 20 100 = (-350)%float /\
  Binary64.py_min 100 (50 + 5 * (20 - 100))%float = (-350)%float /\
  ltb (Binary64.correct_humidity 50 20 100) 0 = true /\
  (exists H_raw T_raw T_corr : Q, correct_humidity H_raw T_raw T_corr < 0).
Proof.
  assert (Hform : forall H_raw T_raw T_corr,
    correct_humidity H_raw T_raw T_corr == Qmin 100 (H_raw + 5 * (T_raw - T_corr))).
  { intros H_raw T_raw T_corr. unfold correct_humidity. rewrite py_min_Qmin.
    apply Q.min_compat; [reflexivity |]. field. }
  split; [exact Hform |].
  split.
  { intros H_raw T_raw. rewrite Hform.
    apply Q.min_compat; [reflexivity |]. ring. }
  split; [reflexivity |].
  split; [vm_compute; reflexivity |].
  split; [vm_compute; reflexivity |].
  split; [vm_compute; reflexivity |].
  exists 50, 20, 100. reflexivity.
Qed.

(** The identity of C10 refuted: on (40.1, 20.1, 20.1), where
    [T_corr = T_raw], the code returns 40.099999999999994, while
    [min(100, H_raw + 5 * (T_raw - T_corr))] and [min(100, H_raw)] are
    40.1. *)
Lemma correct_humidity_closed_form_counterexample :
  Binary64.correct_humidity 40.1 20.1 20.1 = 40.099999999999994%float /\
  Binary64.py_min 100 (40.1 + 5 * (20.1 - 20.1))%float = 40.1%float /\
  Binary64.py_min 100 40.1 = 40.1%float /\
  eqb (Binary64.correct_humidity 40.1 20.1 20.1)
      (Binary64.py_min 100 (40.1 + 5 * (20.1 - 20.1))%float) = false /\
  eqb (Binary64.correct_humidity 40.1 20.1 20.1) (Binary64.py_min 100 40.1) = false.
Proof. repeat split; vm_compute; reflexivity. Qed.

End HumidityClaim.

(** ** Sensor reads succeed silently *)

Section Reads.
Variable N : nat.
Variable hw : Hardware.
Hypothesis HN : (1 <= N)%nat.

Lemma silent_sample (func : M Q) :
  silent func (fun _ => True) -> silent (sample N func) (fun _ => True).
Proof.
  intros Hfunc. unfold sample.
  eapply silent_bind; [exact Hfunc |]. intros v0 _.
  eapply silent_bind.
  - apply (silent_for_range (fun values => length values = N)).
    + intros values Hlen.
      eapply silent_bind; [apply silent_sleep |]. intros _ _.
      eapply silent_bind; [exact Hfunc |]. intros v _.
      apply silent_ret. rewrite length_slide; [exact Hlen |].
      now apply (window_nonempty N).
    + apply length_replicate.
  - intros values Hlen. apply silent_avg. now apply (window_nonempty N).
Qed.

Lemma silent_get_cpu_temperature : silent (get_cpu_temperature hw) (fun _ => True).
Proof.
  unfold get_cpu_temperature.
  eapply silent_bind; [apply silent_call |]. intros temp _. now apply silent_ret.
Qed.

Lemma silent_read_init : silent (read_init hw) (fun _ => True).
Proof.
  unfold read_init.
  repeat (eapply silent_bind; [apply silent_call |]; intros ? _).
  apply silent_sleep.
Qed.

Lemma silent_read_bme280 :
  silent (read_bme280 N hw)
    (fun d => exists temp_corr humid_corr pressure altitude cpu_temp temp humid,
       d = dict [("temperature", temp_corr);
                 ("humidity", humid_corr);
                 ("pressure", pressure);
                 ("altitude", altitude);
                 ("cpu_temperature", cpu_temp);
                 ("raw_temperature", temp);
                 ("raw_humidity", humid)]%string).
Proof.
  unfold read_bme280.
  eapply silent_bind; [apply silent_get_cpu_temperature |]. intros c0 _.
  eapply silent_bind; [apply silent_call |]. intros t0 _.
  eapply silent_bind; [apply silent_call |]. intros h0 _.
  eapply silent_bind.
  - apply (silent_for_range
             (fun '(c, t, h) => length c = N /\ length t = N /\ length h = N)).
    + intros [[c t] h] (Hc & Ht & Hh).
      eapply silent_bind; [apply silent_sleep |]. intros _ _.
      eapply silent_bind; [apply silent_get_cpu_temperature |]. intros c' _.
      eapply silent_bind; [apply silent_call |]. intros t' _.
      eapply silent_bind; [apply silent_call |]. intros h' _.
      apply silent_ret.
      rewrite !length_slide by (eapply (window_nonempty N); eassumption). auto.
    + now rewrite !length_replicate.
  - intros [[c t] h] (Hc & Ht & Hh).
    eapply silent_bind; [apply silent_avg; now apply (window_nonempty N) |]. intros cpu_temp _.
    eapply silent_bind; [apply silent_avg; now apply (window_nonempty N) |]. intros temp _.
    eapply silent_bind; [apply silent_avg; now apply (window_nonempty N) |]. intros humid _.
    eapply silent_bind; [apply silent_sample, silent_call |]. intros pressure _.
    eapply silent_bind; [apply silent_sample, silent_call |]. intros altitude _.
    apply silent_ret. now eexists _, _, _, _, _, _, _.
Qed.

Lemma silent_read_ltr559 :
  silent (read_ltr559 N hw) (fun d => exists light, d = dict [("light", light)]%string).
Proof.
  unfold read_ltr559.
  eapply silent_bind; [apply silent_sample, silent_call |]. intros light _.
  apply silent_ret. now eexists.
Qed.

Lemma silent_read_gas :
  silent (read_gas N hw)
    (fun d => exists oxidising reducing nh3,
       d = dict [("oxidising", oxidising);
                 ("reducing", reducing);
                 ("nh3", nh3)]%string).
Proof.
  unfold read_gas.
  eapply silent_bind; [apply silent_call |]. intros _ _.
  eapply silent_bind; [apply silent_sleep |]. intros _ _.
  eapply silent_bind; [apply silent_call |]. intros data _.
  eapply silent_bind.
  - apply (silent_for_range
             (fun '(ox, re, nh) => length ox = N /\ length re = N /\ length nh = N)).
    + intros [[ox re] nh] (Hox & Hre & Hnh).
      eapply silent_bind; [apply silent_sleep |]. intros _ _.
      eapply silent_bind; [apply silent_call |]. intros data' _.
      apply silent_ret.
      rewrite !length_slide by (eapply (window_nonempty N); eassumption). auto.
    + now rewrite !length_replicate.
  - intros [[ox re] nh] (Hox & Hre & Hnh).
    eapply silent_bind; [apply silent_avg; now apply (window_nonempty N) |]. intros o _.
    eapply silent_bind; [apply silent_avg; now apply (window_nonempty N) |]. intros r _.
    eapply silent_bind; [apply silent_avg; now apply (window_nonempty N) |]. intros n _.
    apply silent_ret. now eexists _, _, _.
Qed.

Lemma silent_read_noise :
  silent (read_noise N hw)
    (fun d => exists low mid high amp,
       d = dict [("low", low); ("mid", mid); ("high", high); ("amp", amp)]%string).
Proof.
  unfold read_noise.
  eapply silent_bind; [apply silent_call |]. intros [[[low mid] high] amp] _.
  eapply silent_bind.
  - apply (silent_for_range
             (fun '(lows, mids, highs, amps) =>
                length lows = N /\ length mids = N /\
                length highs = N /\ length amps = N)).
    + intros [[[lows mids] highs] amps] (Hl & Hm & Hh & Ha).
      eapply silent_bind; [apply silent_sleep |]. intros _ _.
      eapply silent_bind; [apply silent_call |]. intros [[[low' mid'] high'] amp'] _.
      apply silent_ret.
      rewrite !length_slide by (eapply (window_nonempty N); eassumption). auto.
    + now rewrite !length_replicate.
  - intros [[[lows mids] highs] amps] (Hl & Hm & Hh & Ha).
    eapply silent_bind; [apply silent_avg; now apply (window_nonempty N) |]. intros l _.
    eapply silent_bind; [apply silent_avg; now apply (window_nonempty N) |]. intros m _.
    eapply silent_bind; [apply silent_avg; now apply (window_nonempty N) |]. intros h _.
    eapply silent_bind; [apply silent_avg; now apply (window_nonempty N) |]. intros a _.
    apply silent_ret. now eexists _, _, _, _.
Qed.
End Reads.

Lemma emits_ext {A : Type} (m m' : M A) (post : A -> list string -> Prop) :
  (forall w, m w = m' w) -> emits m' post -> emits m post.
Proof. intros Heq Hm w. rewrite Heq. apply Hm. Qed.

Lemma bind_assoc {A B C : Type} (m : M A) (f : A -> M B) (k : B -> M C) (w : World) :
  ((m ≫= f) ≫= k) w = (m ≫= fun a => f a ≫= k) w.
Proof. run. destruct (m w) as [[a | e] w']; run; reflexivity. Qed.

Lemma emits_assoc {A B C : Type} (m : M A) (f : A -> M B) (k : B -> M C)
    (post : C -> list string -> Prop) :
  emits (m ≫= fun a => f a ≫= k) post -> emits ((m ≫= f) ≫= k) post.
Proof. apply emits_ext. apply bind_assoc. Qed.

Lemma emits_silent_then {A B : Type} (m : M A) (k : A -> M B) (P : A -> Prop)
    (post : B -> list string -> Prop) :
  silent m P -> (forall a, P a -> emits (k a) post) -> emits (m ≫= k) post.
Proof.
  intros Hm Hk. eapply emits_bind; [exact Hm |].
  intros a out1 [-> Ha]. exact (Hk a Ha).
Qed.

Lemma emits_print_then {B : Type} (line : string) (k : unit -> M B)
    (post : B -> list string -> Prop) :
  emits (k tt) (fun b out => post b (line :: out)) -> emits (print line ≫= k) post.
Proof.
  intros Hk. eapply emits_bind.
  - apply (emits_print line (fun _ out => out = [line])). reflexivity.
  - intros [] out1 ->. exact Hk.
Qed.

Lemma emits_print_value (data : gmap string Q) (key : string) (v : Q)
    (post : unit -> list string -> Prop) :
  data !! key = Some v ->
  post tt [key +:+ ".value " +:+ format_8f v] ->
  emits (print_value data key) post.
Proof.
  intros Hkey Hpost. unfold print_value, getitem. rewrite Hkey.
  eapply emits_bind; [apply (emits_ret v (fun a out => a = v /\ out = [])); auto |].
  intros a out1 [-> ->]. now apply emits_print.
Qed.

Lemma emits_print_value_then {B : Type} (data : gmap string Q) (key : string) (v : Q)
    (k : unit -> M B) (post : B -> list string -> Prop) :
  data !! key = Some v ->
  emits (k tt) (fun b out => post b ((key +:+ ".value " +:+ format_8f v) :: out)) ->
  emits (print_value data key ≫= k) post.
Proof.
  intros Hkey Hk. eapply emits_bind.
  - apply (emits_print_value data key v (fun _ out => out = [key +:+ ".value " +:+ format_8f v]));
      [exact Hkey | reflexivity].
  - intros [] out1 ->. exact Hk.
Qed.

Ltac report_step :=
  lazymatch goal with
  | |- emits (print _ ≫= _) _ => apply emits_print_then
  | |- emits (print_value _ _ ≫= _) _ => eapply emits_print_value_then; [eassumption |]
  | |- emits (print_value _ _) _ => eapply emits_print_value; [eassumption |]
  | |- emits ((_ ≫= _) ≫= _) _ => apply emits_assoc
  end.

Lemma fetch_emits (N : nat) (hw : Hardware) :
  (1 <= N)%nat ->
  emits (fetch N hw)
    (fun _ out => exists data, complete data /\ out = value_report data).
Proof.
  intros HN. unfold fetch.
  eapply emits_silent_then; [apply silent_read_init |]. intros _ _.
  eapply emits_silent_then; [now apply silent_read_bme280 |].
  intros d1 (temp_corr & humid_corr & pressure & altitude & cpu_temp & temp & humid & ->).
  eapply emits_silent_then; [now apply silent_read_ltr559 |].
  intros d2 (light & ->).
  eapply emits_silent_then; [now apply silent_read_gas |].
  intros d3 (oxidising & reducing & nh3 & ->).
  eapply emits_silent_then; [now apply silent_read_noise |].
  intros d4 (low & mid & high & amp & ->).
  match goal with |- context [print_value ?d "temperature"] => set (data := d) end.
  assert (Htemperature : data !! "temperature"%string = Some temp_corr) by reflexivity.
  assert (Hraw_temperature : data !! "raw_temperature"%string = Some temp) by reflexivity.
  assert (Hcpu_temperature : data !! "cpu_temperature"%string = Some cpu_temp) by reflexivity.
  assert (Hhumidity : data !! "humidity"%string = Some humid_corr) by reflexivity.
  assert (Hraw_humidity : data !! "raw_humidity"%string = Some humid) by reflexivity.
  assert (Hpressure : data !! "pressure"%string = Some pressure) by reflexivity.
  assert (Haltitude : data !! "altitude"%string = Some altitude) by reflexivity.
  assert (Hlight : data !! "light"%string = Some light) by reflexivity.
  assert (Hoxidising : data !! "oxidising"%string = Some oxidising) by reflexivity.
  assert (Hreducing : data !! "reducing"%string = Some reducing) by reflexivity.
  assert (Hnh3 : data !! "nh3"%string = Some nh3) by reflexivity.
  assert (Hlow : data !! "low"%string = Some low) by reflexivity.
  assert (Hmid : data !! "mid"%string = Some mid) by reflexivity.
  assert (Hhigh : data !! "high"%string = Some high) by reflexivity.
  assert (Hamp : data !! "amp"%string = Some amp) by reflexivity.
  clearbody data.
  unfold print_graph_value, print_graph.
  repeat report_step.
  exists data. split.
  - unfold complete, metric_keys. cbn [flat_map groups snd app].
    repeat constructor; eauto.
  - unfold value_report, value_block, value_line, reading, header.
    cbn [map groups separated fst snd app].
    now rewrite Htemperature, Hraw_temperature, Hcpu_temperature, Hhumidity,
      Hraw_humidity, Hpressure, Haltitude, Hlight, Hoxidising, Hreducing, Hnh3,
      Hlow, Hmid, Hhigh, Hamp.
Qed.

Lemma run_print (line : string) (w : World) :
  print line w = (Ok tt, mkWorld (trace w) (stdout w ++ [line])).
Proof. reflexivity. Qed.

Lemma print_then {B : Type} (line : string) (k : unit -> M B) (w : World) :
  (print line ≫= k) w = k tt (mkWorld (trace w) (stdout w ++ [line])).
Proof. reflexivity. Qed.

Lemma print_graph_config_then {B : Type} (key title vlabel : string)
    (k : unit -> M B) (w : World) :
  (print_graph_config key title vlabel false ≫= k) w
  = k tt (mkWorld (trace w) (stdout w ++ config_block base_1000 (key, title, vlabel, []))).
Proof.
  unfold print_graph_config, config_block, header. cbn [map app].
  repeat first [rewrite bind_assoc | rewrite print_then]. cbn [trace stdout].
  now rewrite <- !app_assoc.
Qed.

Lemma print_value_config_then {B : Type} (key title : string) (k : unit -> M B) (w : World) :
  (print_value_config key title ≫= k) w
  = k tt (mkWorld (trace w) (stdout w ++ [label_line (key, title)])).
Proof. reflexivity. Qed.

Ltac config_step :=
  lazymatch goal with
  | |- (print_graph_config _ _ _ _ ≫= _) _ = _ => rewrite print_graph_config_then
  | |- (print_value_config _ _ ≫= _) _ = _ => rewrite print_value_config_then
  | |- (print _ ≫= _) _ = _ => rewrite print_then
  end;
  cbn [trace stdout].

Lemma config_run (N : nat) (hw : Hardware) (environ : gmap string string) (w : World) :
  config N hw environ w
  = (if dirtyconfig environ then fetch N hw else mret tt)
      (mkWorld (trace w) (stdout w ++ config_report base_1000)).
Proof.
  unfold config, zero_limit_default, dirtyconfig.
  generalize (if bool_decide (environ !! "MUNIN_CAP_DIRTYCONFIG"%string = Some "1"%string)
              then fetch N hw else mret tt).
  intros rest.
  repeat config_step.
  rewrite <- !app_assoc. reflexivity.
Qed.

(** ** Whole runs *)

Lemma script_start (N : nat) (hw : Hardware) (environ : gmap string string)
    (ltr : bool) (argv : list string) :
  script N hw environ ltr argv start
  = exit_status (main N hw environ argv (mkWorld (init_trace ltr) [])).
Proof. unfold script, module_init. now destruct ltr. Qed.

Lemma main_dispatch (N : nat) (hw : Hardware) (environ : gmap string string)
    (argv : list string) (w : World) :
  main N hw environ argv w = behaviour N hw environ (mode_of argv) w.
Proof.
  unfold main, mode_of, behaviour.
  destruct (decide (argv !! 1%nat = Some "autoconf"%string)) as [Ha | Ha].
  - rewrite (bool_decide_eq_true_2 _ Ha).
    rewrite bool_decide_eq_true_2 by (eapply lookup_lt_Some; exact Ha). reflexivity.
  - rewrite (bool_decide_eq_false_2 _ Ha), andb_false_r.
    destruct (decide (argv !! 1%nat = Some "config"%string)) as [Hc | Hc].
    + rewrite (bool_decide_eq_true_2 _ Hc).
      rewrite bool_decide_eq_true_2 by (eapply lookup_lt_Some; exact Hc). reflexivity.
    + rewrite (bool_decide_eq_false_2 _ Hc), andb_false_r. reflexivity.
Qed.

Lemma fetch_run (hw : Hardware) (w : World) :
  exists data w',
    fetch samples hw w = (Ok tt, w') /\
    complete data /\
    stdout w' = stdout w ++ value_report data.
Proof.
  assert (HN : (1 <= samples)%nat) by (unfold samples; lia).
  destruct (fetch_emits samples hw HN w)
    as ([] & w' & out & Hrun & Hout & data & Hdata & Hlines).
  exists data, w'. rewrite Hlines in Hout. exact (conj Hrun (conj Hdata Hout)).
Qed.

Lemma run_report (hw : Hardware) (environ : gmap string string) (ltr : bool)
    (argv : list string) :
  mode_of argv = Report ->
  exists data,
    complete data /\
    status (run hw environ ltr argv) = 0%Z /\
    output (run hw environ ltr argv) = value_report data.
Proof.
  intros Hmode. unfold run. rewrite script_start, main_dispatch, Hmode.
  cbn [behaviour].
  destruct (fetch_run hw (mkWorld (init_trace ltr) [])) as (data & w' & Hrun & Hdata & Hout).
  rewrite Hrun. exists data. unfold status, output, exit_status. cbn [fst snd].
  exact (conj Hdata (conj eq_refl Hout)).
Qed.

Lemma run_config (hw : Hardware) (environ : gmap string string) (ltr : bool)
    (argv : list string) :
  mode_of argv = Config ->
  status (run hw environ ltr argv) = 0%Z /\
  if dirtyconfig environ then
    exists data,
      complete data /\
      output (run hw environ ltr argv) = config_report base_1000 ++ value_report data
  else
    output (run hw environ ltr argv) = config_report base_1000.
Proof.
  intros Hmode. unfold run. rewrite script_start, main_dispatch, Hmode.
  cbn [behaviour]. rewrite config_run. cbn [trace stdout app].
  destruct (dirtyconfig environ).
  - destruct (fetch_run hw (mkWorld (init_trace ltr) (config_report base_1000)))
      as (data & w' & Hrun & Hdata & Hout).
    rewrite Hrun. unfold status, output, exit_status. cbn [fst snd].
    split; [reflexivity |]. exists data. exact (conj Hdata Hout).
  - split; reflexivity.
Qed.

Lemma mode_of_config (name : string) : mode_of [name; "config"%string] = Config.
Proof. reflexivity. Qed.

Lemma mode_of_no_argument (name : string) : mode_of [name] = Report.
Proof. reflexivity. Qed.

Lemma value_report_no_graph_args (data : gmap string Q) :
  List.filter is_graph_args (value_report data) = [].
Proof. reflexivity. Qed.

Lemma value_report_has_value_line (data : gmap string Q) :
  existsb is_value_line (value_report data) = true.
Proof. reflexivity. Qed.

Lemma config_report_no_value_line :
  existsb is_value_line (config_report base_1000) = false.
Proof. reflexivity. Qed.

Lemma mode_of_autoconf (name : string) : mode_of [name; "autoconf"%string] = Autoconf.
Proof. reflexivity. Qed.

Lemma run_autoconf (hw : Hardware) (environ : gmap string string) (ltr : bool)
    (argv : list string) :
  mode_of argv = Autoconf ->
  run hw environ ltr argv = (0%Z, mkWorld (init_trace ltr) ["yes"%string]).
Proof.
  intros Hmode. unfold run. rewrite script_start, main_dispatch, Hmode. reflexivity.
Qed.

Lemma config_report_graph_args :
  List.filter is_graph_args (config_report base_1000) = replicate 7 base_1000.
Proof. reflexivity. Qed.

Lemma value_report_headers (data : gmap string Q) :
  List.filter is_header (value_report data) = map header (map fst groups).
Proof. reflexivity. Qed.

Lemma value_report_split (data : gmap string Q) :
  value_report data
  = terminated (map (value_block data) (take 6 groups))
    ++ value_block data ("noise", ["low"; "mid"; "high"; "amp"])%string.
Proof. reflexivity. Qed.

Lemma length_terminated_report (data : gmap string Q) :
  length (terminated (map (value_block data) groups)) = 29%nat.
Proof. reflexivity. Qed.

(** ** Config mode *)

(** C4, as the code has it. In config mode each of the seven groups' blocks
    carries the scaling directive [graph_args --base 1000] and no lower
    limit: [config] leaves [zero_limit] at its default for every group, and
    only a call of [print_graph_config] with [zero_limit] set prints
    [--lower-limit 0]. *)
Theorem config_graph_args (hw : Hardware) (environ : gmap string string)
    (ltr : bool) (name : string) :
  let out := output (run hw environ ltr [name; "config"%string]) in
  (exists rest, out = config_report base_1000 ++ rest) /\
  List.filter is_graph_args out = replicate 7 base_1000 /\
  (forall key title vlabel w,
     stdout (print_graph_config key title vlabel true w).2
     = stdout w ++ config_block base_1000_lower_limit_0 (key, title, vlabel, [])).
Proof.
  intros out. subst out.
  destruct (run_config hw environ ltr _ (mode_of_config name)) as [_ Hout].
  split; [| split].
  - destruct (dirtyconfig environ).
    + destruct Hout as (data & _ & ->). now eexists.
    + rewrite Hout. exists []. now rewrite app_nil_r.
  - destruct (dirtyconfig environ).
    + destruct Hout as (data & _ & ->).
      rewrite List.filter_app, value_report_no_graph_args, config_report_graph_args.
      apply app_nil_r.
    + rewrite Hout. apply config_report_graph_args.
  - intros key title vlabel w. unfold print_graph_config, config_block, header.
    cbn [map app]. repeat first [rewrite bind_assoc | rewrite print_then].
    cbn [trace stdout snd]. rewrite run_print. cbn [trace stdout snd].
    now rewrite <- !app_assoc.
Qed.

Lemma config_graph_args_counterexample :
  List.filter is_graph_args (output (run bench ∅ true ["enviro"; "config"]%string))
  <> replicate 7 base_1000_lower_limit_0.
Proof. vm_compute. discriminate. Qed.

(** C6. In config mode the output has [.value] lines exactly when
    [MUNIN_CAP_DIRTYCONFIG] is the string [1]; then the output is the whole
    config block followed by a whole value report, and otherwise it is the
    config block alone. *)
Theorem config_dirtyconfig (hw : Hardware) (environ : gmap string string)
    (ltr : bool) (name : string) :
  let out := output (run hw environ ltr [name; "config"%string]) in
  let dirty := environ !! "MUNIN_CAP_DIRTYCONFIG"%string = Some "1"%string in
  (existsb is_value_line out = true <-> dirty) /\
  (dirty -> exists data,
     complete data /\ out = config_report base_1000 ++ value_report data) /\
  (~ dirty -> out = config_report base_1000).
Proof.
  intros out dirty. subst out dirty.
  destruct (run_config hw environ ltr _ (mode_of_config name)) as [_ Hout].
  unfold dirtyconfig in Hout.
  destruct (decide (environ !! "MUNIN_CAP_DIRTYCONFIG"%string = Some "1"%string)) as [Hd | Hd].
  - rewrite (bool_decide_eq_true_2 _ Hd) in Hout. destruct Hout as (data & Hdata & Hout).
    split; [| split].
    + rewrite Hout, existsb_app, value_report_has_value_line, orb_true_r. tauto.
    + intros _. now exists data.
    + tauto.
  - rewrite (bool_decide_eq_false_2 _ Hd) in Hout.
    split; [| split].
    + rewrite Hout, config_report_no_value_line. split; [discriminate | tauto].
    + tauto.
    + intros _. exact Hout.
Qed.

(** ** Text formatting *)

Lemma append_cons (c : Ascii.ascii) (s1 s2 : string) :
  String c s1 +:+ s2 = String c (s1 +:+ s2).
Proof. reflexivity. Qed.

Lemma length_append (s1 s2 : string) :
  String.length (s1 +:+ s2) = (String.length s1 + String.length s2)%nat.
Proof.
  induction s1 as [| c s1 IH]; [reflexivity |].
  rewrite append_cons. cbn [String.length]. now rewrite IH.
Qed.

Lemma append_assoc (s1 s2 s3 : string) : (s1 +:+ s2) +:+ s3 = s1 +:+ (s2 +:+ s3).
Proof.
  induction s1 as [| c s1 IH]; [reflexivity |].
  rewrite !append_cons. now rewrite IH.
Qed.

Lemma length_decimals (n : nat) : forall r, String.length (decimals n r) = n.
Proof.
  induction n as [| n IH]; intros r; cbn [decimals]; [reflexivity |].
  rewrite length_append, IH. cbn. lia.
Qed.

Lemma format_8f_eight_decimals (x : Q) :
  exists whole frac,
    format_8f x = whole +:+ "." +:+ frac /\ String.length frac = 8%nat.
Proof.
  unfold format_8f. eexists (_ +:+ _), _. split.
  - rewrite append_assoc. reflexivity.
  - apply length_decimals.
Qed.

(** ** Value-report mode *)

(** C5, as the code has it. Invoked without arguments, the plugin prints
    the seven group headers in the fixed order, each followed by one
    [<key>.value <8 decimals>] line per member; a blank line follows each
    of the first six groups, and the output ends with the last value line
    of the noise group. *)
Theorem value_report_layout (hw : Hardware) (environ : gmap string string)
    (ltr : bool) (name : string) :
  exists data,
    complete data /\
    let out := output (run hw environ ltr [name]) in
    out = terminated (map (value_block data) (take 6 groups))
          ++ value_block data ("noise", ["low"; "mid"; "high"; "amp"])%string /\
    List.filter is_header out = map header (map fst groups) /\
    last out = Some (value_line data "amp") /\
    length out = 28%nat /\
    forall key, exists whole frac,
      value_line data key = key +:+ ".value " +:+ whole +:+ "." +:+ frac /\
      String.length frac = 8%nat.
Proof.
  destruct (run_report hw environ ltr _ (mode_of_no_argument name))
    as (data & Hdata & _ & Hout).
  exists data. split; [exact Hdata |]. intros out. subst out. rewrite Hout.
  split; [apply value_report_split |].
  split; [apply value_report_headers |].
  split; [reflexivity |]. split; [reflexivity |].
  intros key. unfold value_line.
  destruct (format_8f_eight_decimals (reading data key)) as (whole & frac & -> & Hlen).
  now exists whole, frac.
Qed.

Lemma value_report_layout_counterexample :
  ~ exists data,
      output (run bench ∅ true ["enviro"%string])
      = terminated (map (value_block data) groups).
Proof.
  assert (Hlen : length (output (run bench ∅ true ["enviro"%string])) = 28%nat)
    by (vm_compute; reflexivity).
  intros [data H]. rewrite H in Hlen. clear H.
  pose proof (length_terminated_report data) as H29.
  congruence.
Qed.

(** ** Mode selection *)

(** C7. With the single argument [autoconf] the plugin prints the one line
    [yes], calls no sensor read operation, and exits with status 0. *)
Theorem autoconf_prints_yes (hw : Hardware) (environ : gmap string string)
    (ltr : bool) (name : string) :
  let r := run hw environ ltr [name; "autoconf"%string] in
  output r = ["yes"%string] /\
  status r = 0%Z /\
  existsb is_sensing (trace r.2) = false.
Proof.
  intros r. subst r. rewrite (run_autoconf _ _ _ _ (mode_of_autoconf name)).
  now destruct ltr.
Qed.

(** * Further properties *)

(** ** Stepping through reads *)

Ltac step :=
  repeat first
    [ rewrite run_ret | rewrite run_sleep | rewrite run_call | rewrite run_bind
    | progress cbn beta iota ].

Lemma calls_snoc (op : sensor_op) (t : list event) (e : event) (out : list string) :
  calls op (mkWorld (t ++ [e]) out)
  = (count_calls op t + (if is_call op e then 1 else 0))%nat.
Proof. unfold calls. cbn [trace]. rewrite count_calls_app. cbn [count_calls]. lia. Qed.

Lemma drop_slide (n : nat) (values rest : list Q) (v : Q) :
  (S n <= length values)%nat ->
  drop n (slide values v) ++ rest = drop (S n) values ++ v :: rest.
Proof.
  intros Hlen. destruct values as [| x values]; [cbn in Hlen; lia |].
  unfold slide. cbn [tail drop].
  rewrite drop_app_le by (cbn in Hlen; lia). now rewrite <- app_assoc.
Qed.

Lemma length_slide_le (n : nat) (values : list Q) (v : Q) :
  (S n <= length values)%nat -> (n <= length (slide values v))%nat.
Proof.
  intros Hlen. rewrite length_slide; [lia |]. intros ->. cbn in Hlen. lia.
Qed.

Lemma count_calls_rounds (op : sensor_op) (n : nat) (ops : list sensor_op) :
  count_calls op (rounds n ops) = (n * count_calls op (map Call ops))%nat.
Proof.
  induction n as [| n IH]; cbn [rounds count_calls is_call]; [reflexivity |].
  rewrite count_calls_app, IH. lia.
Qed.

Lemma delayed_calls_rounds (n : nat) (op : sensor_op) :
  delayed_calls n op = rounds n [op].
Proof. induction n as [| n IH]; cbn; [reflexivity | now rewrite IH]. Qed.

Ltac count :=
  unfold calls;
  repeat first
    [ rewrite count_calls_app
    | rewrite count_calls_rounds
    | rewrite delayed_calls_rounds
    | progress cbn [count_calls is_call trace stdout map app]
    | rewrite Nat.add_0_r
    | rewrite Nat.add_0_l
    | rewrite Nat.add_1_r
    | rewrite Nat.mul_0_r
    | rewrite Nat.mul_1_r ].

(** ** The three windows of [read_bme280] *)

Lemma bme280_loop (hw : Hardware) (n : nat) :
  forall (c t h : list Q) (w : World),
    (n <= length c)%nat -> (n <= length t)%nat -> (n <= length h)%nat ->
    for_range n
      (fun '(cpu_temps, raw_temps, raw_humids) =>
         time_sleep 0.1;;
         c ← get_cpu_temperature hw;
         t ← bme280_get_temperature hw;
         h ← bme280_get_humidity hw;
         mret (slide cpu_temps c, slide raw_temps t, slide raw_humids h))
      (c, t, h) w
    = (Ok (drop n c ++ map (cpu_stream hw) (seq (calls ThermalZone0 w) n),
           drop n t ++ map (temperature_stream hw) (seq (calls GetTemperature w) n),
           drop n h ++ map (humidity_stream hw) (seq (calls GetHumidity w) n)),
       mkWorld (trace w ++ rounds n [ThermalZone0; GetTemperature; GetHumidity])
               (stdout w)).
Proof.
  induction n as [| n IH]; intros c t h w Hc Ht Hh.
  - cbn [for_range rounds seq map drop]. step. rewrite !app_nil_r. now destruct w.
  - cbn [for_range]. unfold get_cpu_temperature, bme280_get_temperature,
      bme280_get_humidity. step.
    rewrite IH by now apply length_slide_le.
    count. cbn [seq map rounds].
    rewrite !drop_slide by assumption.
    unfold cpu_stream. now rewrite <- !app_assoc.
Qed.

Lemma avg_mean (values : list Q) (w : World) :
  values <> [] -> avg values w = (Ok (mean values), w).
Proof. apply avg_nonempty. Qed.

Lemma window_nonempty' {A : Type} (stream : nat -> A) (k n : nat) :
  (1 <= n)%nat -> window stream k n <> [].
Proof. destruct n; [lia | discriminate]. Qed.

Lemma sample_stream (n : nat) (op : sensor_op) (g : nat -> Q) (w : World) :
  (1 <= n)%nat ->
  sample n (call op g) w
  = (Ok (mean (window g (calls op w) n)),
     mkWorld (trace w ++ Call op :: delayed_calls n op) (stdout w)).
Proof.
  intros Hn. rewrite sample_call. apply avg_mean. now apply window_nonempty'.
Qed.

Lemma avg_stream (g : nat -> Q) (k n : nat) (w : World) :
  (1 <= n)%nat -> avg (map g (seq k n)) w = (Ok (mean (map g (seq k n))), w).
Proof. intros Hn. apply avg_mean. now apply seq_nonempty. Qed.

Lemma read_bme280_run (n : nat) (hw : Hardware) (w : World) :
  (1 <= n)%nat ->
  read_bme280 n hw w
  = (Ok (dict (bme280_readings n hw w)),
     mkWorld (trace w ++ bme280_trace n) (stdout w)).
Proof.
  intros Hn. unfold read_bme280, get_cpu_temperature, bme280_get_temperature,
    bme280_get_humidity. step.
  rewrite (bme280_loop hw n) by now rewrite length_replicate.
  step. rewrite !drop_ge by now rewrite length_replicate.
  cbn [app]. count.
  do 3 (rewrite avg_stream by exact Hn; step).
  unfold bme280_get_pressure, bme280_get_altitude.
  do 2 (rewrite sample_stream by exact Hn; step).
  unfold bme280_readings, bme280_trace, window.
  count. rewrite <- !app_assoc. cbn [app]. reflexivity.
Qed.

(** ** The windows of [read_gas] and [read_noise] *)

Lemma gas_loop (hw : Hardware) (n : nat) :
  forall (ox re nh : list Q) (w : World),
    (n <= length ox)%nat -> (n <= length re)%nat -> (n <= length nh)%nat ->
    for_range n
      (fun '(ox, re, nh) =>
         time_sleep 0.1;;
         data ← gas_read_all hw;
         mret (slide ox (oxidising data / 1000),
               slide re (reducing data / 1000),
               slide nh (nh3 data / 1000)))
      (ox, re, nh) w
    = (Ok (drop n ox ++ map (fun i => oxidising (gas_stream hw i) / 1000)
                            (seq (calls ReadAll w) n),
           drop n re ++ map (fun i => reducing (gas_stream hw i) / 1000)
                            (seq (calls ReadAll w) n),
           drop n nh ++ map (fun i => nh3 (gas_stream hw i) / 1000)
                            (seq (calls ReadAll w) n)),
       mkWorld (trace w ++ rounds n [ReadAll]) (stdout w)).
Proof.
  induction n as [| n IH]; intros ox re nh w Hox Hre Hnh.
  - cbn [for_range rounds seq map drop]. step. rewrite !app_nil_r. now destruct w.
  - cbn [for_range]. unfold gas_read_all. step.
    rewrite IH by now apply length_slide_le.
    count. cbn [seq map rounds].
    rewrite !drop_slide by assumption.
    now rewrite <- !app_assoc.
Qed.

Lemma noise_loop (hw : Hardware) (n : nat) :
  forall (lows mids highs amps : list Q) (w : World),
    (n <= length lows)%nat -> (n <= length mids)%nat ->
    (n <= length highs)%nat -> (n <= length amps)%nat ->
    for_range n
      (fun '(lows, mids, highs, amps) =>
         time_sleep 0.1;;
         '(low, mid, high, amp) ← noise_get_noise_profile hw;
         mret (slide lows low, slide mids mid, slide highs high, slide amps amp))
      (lows, mids, highs, amps) w
    = (Ok (drop n lows ++ map (fun i => (noise_stream hw i).1.1.1)
                              (seq (calls GetNoiseProfile w) n),
           drop n mids ++ map (fun i => (noise_stream hw i).1.1.2)
                              (seq (calls GetNoiseProfile w) n),
           drop n highs ++ map (fun i => (noise_stream hw i).1.2)
                               (seq (calls GetNoiseProfile w) n),
           drop n amps ++ map (fun i => (noise_stream hw i).2)
                              (seq (calls GetNoiseProfile w) n)),
       mkWorld (trace w ++ rounds n [GetNoiseProfile]) (stdout w)).
Proof.
  induction n as [| n IH]; intros lows mids highs amps w Hl Hm Hh Ha.
  - cbn [for_range rounds seq map drop]. step. rewrite !app_nil_r. now destruct w.
  - cbn [for_range]. unfold noise_get_noise_profile. step.
    destruct (noise_stream hw (calls GetNoiseProfile _)) as [[[low mid] high] amp] eqn:E.
    step. rewrite IH by now apply length_slide_le.
    count. cbn [seq map rounds].
    rewrite !drop_slide by assumption.
    unfold calls in E. cbn [trace] in E. rewrite count_calls_sleep in E.
    rewrite E. cbn [fst snd]. now rewrite <- !app_assoc.
Qed.

Lemma read_init_run (hw : Hardware) (w : World) :
  read_init hw w = (Ok tt, after_init w).
Proof.
  unfold read_init, bme280_update_sensor, ltr559_get_lux, gas_read_all,
    noise_get_noise_profile, after_init, init_calls.
  step. cbn [trace stdout]. now rewrite <- !app_assoc.
Qed.

Lemma read_ltr559_run (n : nat) (hw : Hardware) (w : World) :
  (1 <= n)%nat ->
  read_ltr559 n hw w
  = (Ok (dict (ltr559_readings n hw w)),
     mkWorld (trace w ++ Call GetLux :: delayed_calls n GetLux) (stdout w)).
Proof.
  intros Hn. unfold read_ltr559, ltr559_get_lux. step.
  rewrite sample_stream by exact Hn. step. reflexivity.
Qed.

Lemma read_gas_run (n : nat) (hw : Hardware) (w : World) :
  (1 <= n)%nat ->
  read_gas n hw w
  = (Ok (dict (gas_readings n hw w)),
     mkWorld (trace w ++ gas_trace n) (stdout w)).
Proof.
  intros Hn. unfold read_gas, gas_read_all. step.
  rewrite (gas_loop hw n) by now rewrite length_replicate.
  step. rewrite !drop_ge by now rewrite length_replicate.
  cbn [app]. count.
  do 3 (rewrite avg_stream by exact Hn; step).
  unfold gas_readings, gas_trace, window.
  count. rewrite <- !app_assoc. cbn [app]. reflexivity.
Qed.

Lemma read_noise_run (n : nat) (hw : Hardware) (w : World) :
  (1 <= n)%nat ->
  read_noise n hw w
  = (Ok (dict (noise_readings n hw w)),
     mkWorld (trace w ++ Call GetNoiseProfile :: rounds n [GetNoiseProfile])
             (stdout w)).
Proof.
  intros Hn. unfold read_noise, noise_get_noise_profile. step.
  destruct (noise_stream hw (calls GetNoiseProfile w)) as [[[low mid] high] amp].
  step. rewrite (noise_loop hw n) by now rewrite length_replicate.
  step. rewrite !drop_ge by now rewrite length_replicate.
  cbn [app]. count.
  do 4 (rewrite avg_stream by exact Hn; step).
  unfold noise_readings, window.
  count. rewrite <- !app_assoc. cbn [app]. reflexivity.
Qed.

(** ** A whole value-report pass *)

Lemma print_value_then {B : Type} (data : gmap string Q) (key : string) (v : Q)
    (k : unit -> M B) (w : World) :
  data !! key = Some v ->
  (print_value data key ≫= k) w
  = k tt (mkWorld (trace w) (stdout w ++ [key +:+ ".value " +:+ format_8f v])).
Proof.
  intros Hkey. unfold print_value, getitem. rewrite bind_assoc, Hkey. reflexivity.
Qed.

Lemma print_value_run (data : gmap string Q) (key : string) (v : Q) (w : World) :
  data !! key = Some v ->
  print_value data key w
  = (Ok tt, mkWorld (trace w) (stdout w ++ [key +:+ ".value " +:+ format_8f v])).
Proof. intros Hkey. unfold print_value, getitem. now rewrite Hkey. Qed.

Ltac print_step :=
  lazymatch goal with
  | |- (print _ ≫= _) _ = _ => rewrite print_then
  | |- (print_value _ _ ≫= _) _ = _ => erewrite print_value_then by eassumption
  | |- print_value _ _ _ = _ => erewrite print_value_run by eassumption
  | |- ((_ ≫= _) ≫= _) _ = _ => rewrite bind_assoc
  end;
  cbn [trace stdout].

Lemma fetch_from_reads (n : nat) (hw : Hardware) (w w1 w2 w3 w4 : World)
    (d1 d2 d3 d4 : gmap string Q) :
  read_bme280 n hw (after_init w) = (Ok d1, w1) ->
  read_ltr559 n hw w1 = (Ok d2, w2) ->
  read_gas n hw w2 = (Ok d3, w3) ->
  read_noise n hw w3 = (Ok d4, w4) ->
  complete (update (update (update (update ∅ d1) d2) d3) d4) ->
  fetch n hw w
  = (Ok tt,
     mkWorld (trace w4)
       (stdout w4 ++ value_report (update (update (update (update ∅ d1) d2) d3) d4))).
Proof.
  intros H1 H2 H3 H4 Hdata. unfold fetch.
  rewrite run_bind, read_init_run. cbn beta iota.
  rewrite run_bind, H1. cbn beta iota.
  rewrite run_bind, H2. cbn beta iota.
  rewrite run_bind, H3. cbn beta iota.
  rewrite run_bind, H4. cbn beta iota.
  set (data := update (update (update (update ∅ d1) d2) d3) d4) in *.
  clearbody data.
  unfold complete, metric_keys in Hdata. cbn [flat_map groups snd app] in Hdata.
  repeat match goal with
         | H : Forall _ (_ :: _) |- _ =>
             let v := fresh "v" in
             let Hv := fresh "Hv" in
             apply Forall_cons in H as [[v Hv] H]
         end.
  unfold print_graph_value, print_graph.
  repeat print_step.
  unfold value_report, value_block, value_line, reading, header.
  cbn [map groups separated fst snd app].
  repeat match goal with H : data !! _ = Some _ |- _ => rewrite H; clear H end.
  cbn [default]. rewrite <- !app_assoc. reflexivity.
Qed.

Lemma fetch_data (n : nat) (hw : Hardware) (w : World) :
  update (update (update (update ∅
    (dict (bme280_readings n hw (after_init w))))
    (dict (ltr559_readings n hw
             (mkWorld (trace (after_init w) ++ bme280_trace n) (stdout (after_init w))))))
    (dict (gas_readings n hw
             (mkWorld ((trace (after_init w) ++ bme280_trace n)
                       ++ Call GetLux :: delayed_calls n GetLux) (stdout (after_init w))))))
    (dict (noise_readings n hw
             (mkWorld (((trace (after_init w) ++ bme280_trace n)
                        ++ Call GetLux :: delayed_calls n GetLux)
                       ++ gas_trace n) (stdout (after_init w)))))
  = dict (fetch_readings n hw w).
Proof.
  unfold fetch_readings, bme280_readings, ltr559_readings, gas_readings,
    noise_readings, bme280_trace, gas_trace, after_init, init_calls.
  count. reflexivity.
Qed.

Lemma fetch_pass (n : nat) (hw : Hardware) (w : World) :
  (1 <= n)%nat ->
  fetch n hw w
  = (Ok tt,
     mkWorld (trace w ++ fetch_trace n)
             (stdout w ++ value_report (dict (fetch_readings n hw w)))).
Proof.
  intros Hn.
  erewrite fetch_from_reads;
    [ | now apply read_bme280_run | now apply read_ltr559_run
      | now apply read_gas_run | now apply read_noise_run | ].
  - cbn [trace stdout]. rewrite fetch_data.
    unfold fetch_trace, after_init. cbn [trace stdout].
    now rewrite <- !app_assoc.
  - cbn [trace stdout]. rewrite fetch_data.
    unfold complete, metric_keys, fetch_readings, bme280_readings, ltr559_readings,
      gas_readings, noise_readings.
    cbn [flat_map groups snd app].
    repeat constructor; eexists; reflexivity.
Qed.

(** ** Edge behaviour of the sampler *)

(** X1. With a sample count of 0 the window is empty: [sample] calls the
    read operation once, never sleeps, and fails with [ZeroDivisionError]
    in [avg]. *)
Theorem sample_no_samples (func : M Q) (w w' : World) (v : Q) :
  func w = (Ok v, w') ->
  sample 0 func w = (Raise ZeroDivisionError, w').
Proof. intros Hfunc. unfold sample. step. rewrite Hfunc. reflexivity. Qed.

Lemma sample_no_samples_witness :
  call GetLux (fun _ => 3) start = (Ok 3, mkWorld [Call GetLux] []) /\
  sample 0 (call GetLux (fun _ => 3)) start
  = (Raise ZeroDivisionError, mkWorld [Call GetLux] []).
Proof.
  split; [reflexivity |].
  apply (sample_no_samples (call GetLux (fun _ => 3)) start (mkWorld [Call GetLux] []) 3).
  reflexivity.
Defined.

(** ** Missing keys *)

(** X3. For a key the reading set lacks, [print_value] raises [KeyError]
    and prints nothing; [print_graph_value] has by then printed the group
    header, which stays on stdout. *)
Theorem print_value_missing_key (data : gmap string Q) (key : string) (w : World) :
  data !! key = None ->
  print_value data key w = (Raise (KeyError key), w) /\
  print_graph_value data key w
  = (Raise (KeyError key), mkWorld (trace w) (stdout w ++ [header key])).
Proof.
  intros Hkey. unfold print_graph_value, print_graph, print_value, getitem.
  rewrite Hkey. split; reflexivity.
Qed.

Lemma print_value_missing_key_witness :
  print_value (dict [("light", 3)]%string) "nh3" start = (Raise (KeyError "nh3"), start) /\
  print_graph_value (dict [("light", 3)]%string) "nh3" start
  = (Raise (KeyError "nh3"), mkWorld [] ["multigraph enviro_nh3"%string]).
Proof.
  apply (print_value_missing_key (dict [("light", 3)]%string) "nh3" start).
  reflexivity.
Defined.

(** ** What the read functions return *)

(** X4. [read_bme280], for [N >= 1], prints nothing, calls each of its five
    read operations [N + 1] times, and returns exactly seven readings: the
    three raw means over the [N] reads after the pre-fill (the thermal zone
    in degrees), the means of pressure and altitude, the temperature
    corrected by the CPU mean, and the humidity corrected with the raw and
    the corrected temperature. *)
Theorem read_bme280_readings (N : nat) (hw : Hardware) (w : World) :
  (1 <= N)%nat ->
  let cpu := mean (window (cpu_stream hw) (calls ThermalZone0 w) N) in
  let temp := mean (window (temperature_stream hw) (calls GetTemperature w) N) in
  let humid := mean (window (humidity_stream hw) (calls GetHumidity w) N) in
  exists d w',
    read_bme280 N hw w = (Ok d, w') /\
    stdout w' = stdout w /\
    (forall op, In op [ThermalZone0; GetTemperature; GetHumidity; GetPressure; GetAltitude] ->
       calls op w' = (calls op w + N + 1)%nat) /\
    size d = 7%nat /\
    d !! "cpu_temperature"%string = Some cpu /\
    d !! "raw_temperature"%string = Some temp /\
    d !! "raw_humidity"%string = Some humid /\
    d !! "temperature"%string = Some (correct_temperature temp cpu) /\
    d !! "humidity"%string
      = Some (correct_humidity humid temp (correct_temperature temp cpu)) /\
    d !! "pressure"%string
      = Some (mean (window (pressure_stream hw) (calls GetPressure w) N)) /\
    d !! "altitude"%string
      = Some (mean (window (altitude_stream hw) (calls GetAltitude w) N)).
Proof.
  intros HN cpu temp humid. eexists _, _.
  split; [now apply read_bme280_run |].
  split; [reflexivity |].
  split.
  { intros op Hop. unfold bme280_trace.
    cbn [In] in Hop. destruct Hop as [<- | [<- | [<- | [<- | [<- | []]]]]];
      count; lia. }
  split.
  { reflexivity. }
  repeat split; reflexivity.
Qed.

Lemma read_bme280_readings_witness :
  (1 <= 2)%nat /\
  exists d w',
    read_bme280 2 bench start = (Ok d, w') /\
    size d = 7%nat /\
    d !! "temperature"%string
      = Some (correct_temperature
                (mean (window (temperature_stream bench) 0 2))
                (mean (window (cpu_stream bench) 0 2))).
Proof.
  split; [lia |].
  destruct (read_bme280_readings 2 bench start ltac:(lia))
    as (d & w' & Hrun & _ & _ & Hsize & _ & _ & _ & Htemp & _).
  exists d, w'. exact (conj Hrun (conj Hsize Htemp)).
Defined.

(** X5. [read_gas], for [N >= 1], prints nothing and reads the gas sensor
    [N + 2] times: the first reading is dropped, the second only pre-fills
    the windows, and each of the three returned values is the mean, over
    the last [N] readings, of the field divided by 1000. *)
Theorem read_gas_readings (N : nat) (hw : Hardware) (w : World) :
  (1 <= N)%nat ->
  let last_reads := fun (field : gas_reading -> Q) =>
    map (fun i => field (gas_stream hw i) / 1000) (seq (calls ReadAll w + 2) N) in
  exists d w',
    read_gas N hw w = (Ok d, w') /\
    stdout w' = stdout w /\
    calls ReadAll w' = (calls ReadAll w + N + 2)%nat /\
    size d = 3%nat /\
    d !! "oxidising"%string = Some (mean (last_reads oxidising)) /\
    d !! "reducing"%string = Some (mean (last_reads reducing)) /\
    d !! "nh3"%string = Some (mean (last_reads nh3)).
Proof.
  intros HN last_reads. subst last_reads. cbn beta.
  replace (calls ReadAll w + 2)%nat with (S (S (calls ReadAll w))) by lia.
  eexists _, _.
  split; [now apply read_gas_run |].
  split; [reflexivity |].
  split; [unfold gas_trace; count; lia |].
  split; [reflexivity |].
  repeat split; reflexivity.
Qed.

Lemma read_gas_readings_witness :
  (1 <= 2)%nat /\
  exists d w',
    read_gas 2 bench start = (Ok d, w') /\
    calls ReadAll w' = (calls ReadAll start + 2 + 2)%nat.
Proof.
  split; [lia |].
  destruct (read_gas_readings 2 bench start ltac:(lia))
    as (d & w' & Hrun & _ & Hcalls & _).
  exists d, w'. exact (conj Hrun Hcalls).
Defined.

(** X6. [read_noise], for [N >= 1], prints nothing, reads the noise profile
    [N + 1] times and returns four values: the component-wise means of the
    [N] profiles read after the pre-fill. *)
Theorem read_noise_readings (N : nat) (hw : Hardware) (w : World) :
  (1 <= N)%nat ->
  let profiles := window (noise_stream hw) (calls GetNoiseProfile w) N in
  exists d w',
    read_noise N hw w = (Ok d, w') /\
    stdout w' = stdout w /\
    calls GetNoiseProfile w' = (calls GetNoiseProfile w + N + 1)%nat /\
    size d = 4%nat /\
    d !! "low"%string = Some (mean (map (fun p => p.1.1.1) profiles)) /\
    d !! "mid"%string = Some (mean (map (fun p => p.1.1.2) profiles)) /\
    d !! "high"%string = Some (mean (map (fun p => p.1.2) profiles)) /\
    d !! "amp"%string = Some (mean (map (fun p => p.2) profiles)).
Proof.
  intros HN profiles. subst profiles. unfold window. rewrite !map_map.
  eexists _, _.
  split; [now apply read_noise_run |].
  split; [reflexivity |].
  split; [count; lia |].
  split; [reflexivity |].
  repeat split; reflexivity.
Qed.

Lemma read_noise_readings_witness :
  (1 <= 2)%nat /\
  exists d w',
    read_noise 2 bench start = (Ok d, w') /\
    d !! "amp"%string
      = Some (mean (map (fun p => p.2) (window (noise_stream bench) 0 2))).
Proof.
  split; [lia |].
  destruct (read_noise_readings 2 bench start ltac:(lia))
    as (d & w' & Hrun & _ & _ & _ & _ & _ & _ & Hamp).
  exists d, w'. exact (conj Hrun Hamp).
Defined.

(** ** A value-report pass as a function of the hardware *)

Lemma samples_positive : (1 <= samples)%nat.
Proof. unfold samples. lia. Qed.

Lemma total_sleep_app (t1 t2 : list event) :
  total_sleep (t1 ++ t2) == total_sleep t1 + total_sleep t2.
Proof.
  induction t1 as [| e t1 IH]; cbn [app total_sleep]; [ring |].
  destruct e; rewrite IH; ring.
Qed.

Lemma total_sleep_calls (ops : list sensor_op) (t : list event) :
  total_sleep (map Call ops ++ t) = total_sleep t.
Proof. induction ops as [| op ops IH]; cbn; [reflexivity | exact IH]. Qed.

Lemma total_sleep_rounds (n : nat) (ops : list sensor_op) :
  total_sleep (rounds n ops) == inject_Z (Z.of_nat n) * 0.1.
Proof.
  induction n as [| n IH]; cbn [rounds total_sleep].
  - reflexivity.
  - rewrite total_sleep_calls, IH, inject_nat_succ. ring.
Qed.

Lemma fetch_readings_stdout (n : nat) (hw : Hardware) (t : list event)
    (out out' : list string) :
  fetch_readings n hw (mkWorld t out) = fetch_readings n hw (mkWorld t out').
Proof. reflexivity. Qed.

Lemma run_report_pass (hw : Hardware) (environ : gmap string string) (ltr : bool)
    (argv : list string) :
  mode_of argv = Report ->
  run hw environ ltr argv
  = (0%Z,
     mkWorld (init_trace ltr ++ fetch_trace samples)
       (value_report (dict (fetch_readings samples hw (mkWorld (init_trace ltr) []))))).
Proof.
  intros Hmode. unfold run. rewrite script_start, main_dispatch, Hmode.
  cbn [behaviour]. rewrite fetch_pass by exact samples_positive.
  reflexivity.
Qed.

Lemma run_config_clean (hw : Hardware) (environ : gmap string string) (ltr : bool)
    (argv : list string) :
  mode_of argv = Config ->
  dirtyconfig environ = false ->
  run hw environ ltr argv = (0%Z, mkWorld (init_trace ltr) (config_report base_1000)).
Proof.
  intros Hmode Hclean. unfold run. rewrite script_start, main_dispatch, Hmode.
  cbn [behaviour]. rewrite config_run, Hclean. reflexivity.
Qed.

Lemma run_config_dirty (hw : Hardware) (environ : gmap string string) (ltr : bool)
    (argv : list string) :
  mode_of argv = Config ->
  dirtyconfig environ = true ->
  run hw environ ltr argv
  = (0%Z,
     mkWorld (init_trace ltr ++ fetch_trace samples)
       (config_report base_1000
        ++ value_report (dict (fetch_readings samples hw (mkWorld (init_trace ltr) []))))).
Proof.
  intros Hmode Hdirty. unfold run. rewrite script_start, main_dispatch, Hmode.
  cbn [behaviour]. rewrite config_run, Hdirty.
  rewrite fetch_pass by exact samples_positive.
  cbn [trace stdout app exit_status].
  now rewrite (fetch_readings_stdout samples hw (init_trace ltr) _ []).
Qed.

(** ** One argument, three modes *)

Lemma init_trace_no_sensing (ltr : bool) : existsb is_sensing (init_trace ltr) = false.
Proof. now destruct ltr. Qed.

Lemma fetch_trace_sensing (ltr : bool) (n : nat) :
  existsb is_sensing (init_trace ltr ++ fetch_trace n) = true.
Proof. rewrite existsb_app. apply orb_true_r. Qed.

Lemma value_report_no_config_line (data : gmap string Q) :
  existsb is_graph_args (value_report data) = false.
Proof. reflexivity. Qed.

Lemma config_report_has_graph_args :
  existsb is_graph_args (config_report base_1000) = true.
Proof. reflexivity. Qed.

(** C8, as the code has it.  The run is the behaviour of exactly one
    mode, and the mode is determined by [sys.argv[1]] alone: [autoconf]
    selects the capability answer, [config] selects config mode, and
    anything else, or no argument, selects the value report; the run exits
    with status 0.  The capability answer prints [yes] and senses nothing.
    The value report senses and prints the value report, with no
    [graph_args] line of a config block.  Config mode prints the config
    block; without [MUNIN_CAP_DIRTYCONFIG = 1] it senses nothing and prints
    no value line, and with it the run goes on to a full value-report pass:
    its output is the config block followed by the output of a report run,
    and its trace is the trace of a report run. *)
Theorem mode_selected_by_first_argument (hw : Hardware) (environ : gmap string string)
    (ltr : bool) (argv : list string) :
  let r := run hw environ ltr argv in
  r = exit_status (behaviour samples hw environ (mode_of argv)
                     (mkWorld (init_trace ltr) [])) /\
  status r = 0%Z /\
  (mode_of argv = Autoconf <-> argv !! 1%nat = Some "autoconf"%string) /\
  (mode_of argv = Config <-> argv !! 1%nat = Some "config"%string) /\
  (mode_of argv = Report <->
     argv !! 1%nat <> Some "autoconf"%string /\ argv !! 1%nat <> Some "config"%string) /\
  (forall argv', argv' !! 1%nat = argv !! 1%nat -> run hw environ ltr argv' = r) /\
  match mode_of argv with
  | Autoconf =>
      output r = ["yes"%string] /\
      existsb is_sensing (trace r.2) = false
  | Report =>
      (exists data, complete data /\ output r = value_report data) /\
      existsb is_graph_args (output r) = false /\
      existsb is_sensing (trace r.2) = true
  | Config =>
      if dirtyconfig environ then
        forall argv', mode_of argv' = Report ->
          output r = config_report base_1000 ++ output (run hw environ ltr argv') /\
          trace r.2 = trace (run hw environ ltr argv').2
      else
        output r = config_report base_1000 /\
        existsb is_value_line (output r) = false /\
        existsb is_sensing (trace r.2) = false
  end.
Proof.
  intros r. subst r.
  assert (Hrun : forall a, run hw environ ltr a
                 = exit_status (behaviour samples hw environ (mode_of a)
                                  (mkWorld (init_trace ltr) []))).
  { intros a. unfold run. now rewrite script_start, main_dispatch. }
  split; [apply Hrun |].
  split.
  { destruct (mode_of argv) eqn:Hmode.
    - now rewrite (run_autoconf _ _ _ _ Hmode).
    - exact (proj1 (run_config hw environ ltr _ Hmode)).
    - now rewrite (run_report_pass _ _ _ _ Hmode). }
  split; [| split; [| split; [| split]]].
  - unfold mode_of. repeat case_decide; split; congruence.
  - unfold mode_of. repeat case_decide; split; congruence.
  - unfold mode_of. repeat case_decide; split; try congruence; tauto.
  - intros argv' Heq. rewrite !Hrun. unfold mode_of. now rewrite Heq.
  - destruct (mode_of argv) eqn:Hmode.
    + rewrite (run_autoconf _ _ _ _ Hmode). unfold output. cbn [snd trace stdout].
      split; [reflexivity | apply init_trace_no_sensing].
    + destruct (dirtyconfig environ) eqn:Hdirty.
      * intros argv' Hmode'.
        rewrite (run_config_dirty _ _ _ _ Hmode Hdirty),
          (run_report_pass _ environ _ _ Hmode').
        split; reflexivity.
      * rewrite (run_config_clean _ _ _ _ Hmode Hdirty). unfold output.
        cbn [snd trace stdout].
        split; [reflexivity |].
        split; [apply config_report_no_value_line | apply init_trace_no_sensing].
    + destruct (run_report hw environ ltr _ Hmode) as (data & Hdata & _ & Hout).
      split; [exists data; exact (conj Hdata Hout) |].
      rewrite Hout.
      split; [apply value_report_no_config_line |].
      rewrite (run_report_pass _ _ _ _ Hmode). cbn [snd trace].
      apply fetch_trace_sensing.
Qed.

(** The last sentence of C8 refuted: with [MUNIN_CAP_DIRTYCONFIG = 1] a
    [config] run performs two of the behaviours.  It prints the config
    block and then everything a report run prints, and it senses exactly
    as a report run does. *)
Lemma mode_selected_by_first_argument_counterexample :
  let environ : gmap string string := {[ "MUNIN_CAP_DIRTYCONFIG"%string := "1"%string ]} in
  let config_run := run bench environ true ["enviro"; "config"]%string in
  let report_run := run bench environ true ["enviro"%string] in
  mode_of ["enviro"; "config"]%string = Config /\
  mode_of ["enviro"%string] = Report /\
  output config_run = config_report base_1000 ++ output report_run /\
  trace config_run.2 = trace report_run.2 /\
  existsb is_graph_args (output config_run) = true /\
  existsb is_value_line (output config_run) = true /\
  existsb is_sensing (trace config_run.2) = true.
Proof.
  intros environ config_run report_run. subst config_run report_run.
  assert (Hdirty : dirtyconfig environ = true) by reflexivity.
  rewrite (run_config_dirty bench environ true _ (mode_of_config "enviro") Hdirty).
  rewrite (run_report_pass bench environ true _ (mode_of_no_argument "enviro")).
  unfold output. cbn [snd trace stdout].
  split; [reflexivity |]. split; [reflexivity |].
  split; [reflexivity |]. split; [reflexivity |].
  split.
  { rewrite existsb_app, config_report_has_graph_args. reflexivity. }
  split.
  { rewrite existsb_app, value_report_has_value_line. apply orb_true_r. }
  apply fetch_trace_sensing.
Qed.

Lemma mean_window_agree (f g : nat -> Q) (k : nat) :
  agree (S k) f g -> mean (window f k samples) = mean (window g k samples).
Proof.
  intros Hfg. unfold window. f_equal.
  apply map_ext_in. intros i Hi. apply in_seq in Hi. apply Hfg. lia.
Qed.

Lemma agree_map {A B : Type} (h : A -> B) (first : nat) (f g : nat -> A) :
  agree first f g -> agree first (fun i => h (f i)) (fun i => h (g i)).
Proof. intros Hfg i Hi. now rewrite (Hfg i Hi). Qed.

Lemma fetch_readings_agree (hw hw' : Hardware) (ltr : bool) :
  agree 1 (thermal_zone0 hw) (thermal_zone0 hw') ->
  agree 1 (temperature_stream hw) (temperature_stream hw') ->
  agree 1 (humidity_stream hw) (humidity_stream hw') ->
  agree 1 (pressure_stream hw) (pressure_stream hw') ->
  agree 1 (altitude_stream hw) (altitude_stream hw') ->
  agree 2 (lux_stream hw) (lux_stream hw') ->
  agree 3 (gas_stream hw) (gas_stream hw') ->
  agree 2 (noise_stream hw) (noise_stream hw') ->
  fetch_readings samples hw (mkWorld (init_trace ltr) [])
  = fetch_readings samples hw' (mkWorld (init_trace ltr) []).
Proof.
  intros Hcpu Htemp Hhumid Hpressure Haltitude Hlux Hgas Hnoise.
  assert (Hcalls : forall op,
    calls op (after_init (mkWorld (init_trace ltr) []))
    = match op with
      | UpdateSensor | GetLux | ReadAll | GetNoiseProfile => 1%nat
      | _ => 0%nat
      end).
  { intros op. destruct ltr, op; reflexivity. }
  unfold fetch_readings, bme280_readings, ltr559_readings, gas_readings, noise_readings.
  rewrite !Hcalls.
  rewrite (mean_window_agree (cpu_stream hw) (cpu_stream hw') 0)
    by exact (agree_map (fun z => inject_Z z / 1000) 1 _ _ Hcpu).
  rewrite (mean_window_agree _ _ 0 Htemp), (mean_window_agree _ _ 0 Hhumid),
    (mean_window_agree _ _ 0 Hpressure), (mean_window_agree _ _ 0 Haltitude),
    (mean_window_agree _ _ 1 Hlux).
  rewrite (mean_window_agree _ _ 2 (agree_map (fun r => oxidising r / 1000) 3 _ _ Hgas)),
    (mean_window_agree _ _ 2 (agree_map (fun r => reducing r / 1000) 3 _ _ Hgas)),
    (mean_window_agree _ _ 2 (agree_map (fun r => nh3 r / 1000) 3 _ _ Hgas)).
  rewrite (mean_window_agree _ _ 1 (agree_map (fun p => p.1.1.1) 2 _ _ Hnoise)),
    (mean_window_agree _ _ 1 (agree_map (fun p => p.1.1.2) 2 _ _ Hnoise)),
    (mean_window_agree _ _ 1 (agree_map (fun p => p.1.2) 2 _ _ Hnoise)),
    (mean_window_agree _ _ 1 (agree_map (fun p => p.2) 2 _ _ Hnoise)).
  reflexivity.
Qed.

(** X7. In report mode, in a fresh process, the run depends on the
    hardware only through the reads that enter the windows: the thermal
    zone, temperature, humidity, pressure and altitude at driver calls 1 to
    10 (call 0 pre-fills), light and noise at calls 2 to 11 ([read_init]
    used call 0, call 1 pre-fills), gas at calls 3 to 12 ([read_init] used
    call 0, [read_gas] discards call 1, call 2 pre-fills).  Two hardware
    behaviours that agree on these reads give the same output, the same
    trace and the same exit status. *)
Theorem report_reads_that_count (hw hw' : Hardware) (environ : gmap string string)
    (ltr : bool) (argv : list string) :
  mode_of argv = Report ->
  agree 1 (thermal_zone0 hw) (thermal_zone0 hw') ->
  agree 1 (temperature_stream hw) (temperature_stream hw') ->
  agree 1 (humidity_stream hw) (humidity_stream hw') ->
  agree 1 (pressure_stream hw) (pressure_stream hw') ->
  agree 1 (altitude_stream hw) (altitude_stream hw') ->
  agree 2 (lux_stream hw) (lux_stream hw') ->
  agree 3 (gas_stream hw) (gas_stream hw') ->
  agree 2 (noise_stream hw) (noise_stream hw') ->
  run hw environ ltr argv = run hw' environ ltr argv.
Proof.
  intros Hmode Hcpu Htemp Hhumid Hpressure Haltitude Hlux Hgas Hnoise.
  rewrite !run_report_pass by exact Hmode.
  now rewrite (fetch_readings_agree hw hw' ltr).
Qed.

Lemma report_reads_that_count_witness :
  let early := fun i : nat => if (i <? 2)%nat then 0 else 300 in
  let hw' :=
    mkHardware (fun _ => 45000%Z) (fun _ => 25) (fun _ => 40) (fun _ => 1013.25)
               (fun _ => 120.5) early
               (fun i => if (i <? 3)%nat then mkGas 1 1 1 else mkGas 20000 300000 50000)
               (fun _ => (1, 2, 3, 4)) in
  mode_of ["enviro"%string] = Report /\
  lux_stream hw' 1%nat <> lux_stream bench 1%nat /\
  run bench ∅ true ["enviro"%string] = run hw' ∅ true ["enviro"%string].
Proof.
  intros early hw'.
  split; [reflexivity |]. split; [discriminate |].
  apply (report_reads_that_count bench hw' ∅ true ["enviro"%string] eq_refl);
    try (intros i Hi; reflexivity).
  - intros i Hi. cbn [lux_stream bench hw']. unfold early.
    destruct (Nat.ltb_spec i 2); [unfold samples in Hi; lia | reflexivity].
  - intros i Hi. cbn [gas_stream bench hw'].
    destruct (Nat.ltb_spec i 3); [unfold samples in Hi; lia | reflexivity].
Defined.

(** X8. One value-report pass with [N >= 1] samples calls [update_sensor]
    once, each of the five BME280 and thermal-zone reads [N + 1] times,
    [get_lux] and [get_noise_profile] [N + 2] times and [read_all] [N + 3]
    times, and sleeps for [0.7 + 0.6 * N] seconds in all. *)
Theorem fetch_budget (N : nat) (hw : Hardware) (w : World) :
  (1 <= N)%nat ->
  exists w',
    fetch N hw w = (Ok tt, w') /\
    calls UpdateSensor w' = (calls UpdateSensor w + 1)%nat /\
    (forall op, In op [ThermalZone0; GetTemperature; GetHumidity; GetPressure; GetAltitude] ->
       calls op w' = (calls op w + (N + 1))%nat) /\
    calls GetLux w' = (calls GetLux w + (N + 2))%nat /\
    calls GetNoiseProfile w' = (calls GetNoiseProfile w + (N + 2))%nat /\
    calls ReadAll w' = (calls ReadAll w + (N + 3))%nat /\
    total_sleep (trace w')
    == total_sleep (trace w) + 0.7 + 0.6 * inject_Z (Z.of_nat N).
Proof.
  intros HN. eexists. split; [now apply fetch_pass |].
  unfold fetch_trace, init_calls, bme280_trace, gas_trace.
  split; [count; lia |].
  split.
  { intros op Hop. cbn [In] in Hop.
    destruct Hop as [<- | [<- | [<- | [<- | [<- | []]]]]]; count; lia. }
  split; [count; lia |].
  split; [count; lia |].
  split; [count; lia |].
  cbn [trace]. rewrite !delayed_calls_rounds.
  repeat first
    [ rewrite total_sleep_app
    | rewrite total_sleep_rounds
    | progress cbn [total_sleep app] ].
  ring.
Qed.

Lemma fetch_budget_witness :
  (1 <= 10)%nat /\
  exists w',
    fetch 10 bench start = (Ok tt, w') /\
    calls ReadAll w' = (calls ReadAll start + (10 + 3))%nat.
Proof.
  split; [lia |].
  destruct (fetch_budget 10 bench start ltac:(lia))
    as (w' & Hrun & _ & _ & _ & _ & Hgas & _).
  exists w'. exact (conj Hrun Hgas).
Defined.

(** ** Config mode without sensing *)

(** X9. Unless [MUNIN_CAP_DIRTYCONFIG] is the string [1], config mode
    prints the config block and exits with status 0 without calling any
    sensor and without sleeping: the run does not depend on the hardware. *)
Theorem config_without_sensing (hw : Hardware) (environ : gmap string string)
    (ltr : bool) (argv : list string) :
  mode_of argv = Config ->
  environ !! "MUNIN_CAP_DIRTYCONFIG"%string <> Some "1"%string ->
  run hw environ ltr argv
  = (0%Z, mkWorld (init_trace ltr) (config_report base_1000)) /\
  existsb is_sensing (init_trace ltr) = false /\
  total_sleep (init_trace ltr) = 0.
Proof.
  intros Hmode Hclean. split; [| now destruct ltr].
  unfold run. rewrite script_start, main_dispatch, Hmode.
  cbn [behaviour]. rewrite config_run. unfold dirtyconfig.
  rewrite (bool_decide_eq_false_2 _ Hclean). reflexivity.
Qed.

Lemma config_without_sensing_witness :
  run bench (<["MUNIN_CAP_DIRTYCONFIG" := "0"]> ∅)%string true ["enviro"; "config"]%string
  = (0%Z, mkWorld (init_trace true) (config_report base_1000)) /\
  existsb is_sensing (init_trace true) = false /\
  total_sleep (init_trace true) = 0.
Proof.
  apply (config_without_sensing bench (<["MUNIN_CAP_DIRTYCONFIG" := "0"]> ∅)%string
           true ["enviro"; "config"]%string).
  - reflexivity.
  - vm_compute. discriminate.
Defined.

Lemma config_report_fields :
  map field_name (List.filter is_label_line (config_report base_1000)) = metric_keys.
Proof. reflexivity. Qed.

Lemma value_report_fields (data : gmap string Q) :
  map field_name (List.filter is_value_line (value_report data)) = metric_keys.
Proof. reflexivity. Qed.

Lemma config_report_headers :
  List.filter is_header (config_report base_1000) = map header (map fst groups).
Proof. reflexivity. Qed.

(** X10. Config mode and report mode announce the same graphs and the same
    fields in the same order: the [multigraph] lines of both outputs are
    equal, and the names before [.label] in the config output are the
    names before [.value] in the report, one per metric. *)
Theorem config_matches_report (hw : Hardware) (environ : gmap string string)
    (ltr : bool) (name : string) :
  environ !! "MUNIN_CAP_DIRTYCONFIG"%string <> Some "1"%string ->
  let config_out := output (run hw environ ltr [name; "config"%string]) in
  let report_out := output (run hw environ ltr [name]) in
  List.filter is_header config_out = List.filter is_header report_out /\
  map field_name (List.filter is_label_line config_out)
  = map field_name (List.filter is_value_line report_out) /\
  map field_name (List.filter is_value_line report_out) = metric_keys.
Proof.
  intros Hclean config_out report_out. subst config_out report_out.
  destruct (run_config hw environ ltr _ (mode_of_config name)) as [_ Hconfig].
  unfold dirtyconfig in Hconfig. rewrite (bool_decide_eq_false_2 _ Hclean) in Hconfig.
  destruct (run_report hw environ ltr _ (mode_of_no_argument name))
    as (data & _ & _ & Hreport).
  rewrite Hconfig, Hreport.
  rewrite config_report_headers, value_report_headers, config_report_fields,
    value_report_fields.
  repeat split.
Qed.

Lemma config_matches_report_witness :
  List.filter is_header (output (run bench ∅ true ["enviro"; "config"]%string))
  = List.filter is_header (output (run bench ∅ true ["enviro"%string])) /\
  map field_name (List.filter is_label_line
                    (output (run bench ∅ true ["enviro"; "config"]%string)))
  = map field_name (List.filter is_value_line
                      (output (run bench ∅ true ["enviro"%string]))) /\
  map field_name (List.filter is_value_line
                    (output (run bench ∅ true ["enviro"%string])))
  = metric_keys.
Proof.
  apply (config_matches_report bench ∅ true "enviro"%string).
  vm_compute. discriminate.
Defined.

(** ** No samples *)

(** X12. With [samples = 0] a value-report run fails in [read_bme280]: after
    [read_init] and the three pre-fill reads, [avg] divides by zero; nothing
    has been printed and the process ends with status 1. *)
Theorem report_without_samples (hw : Hardware) (environ : gmap string string)
    (ltr : bool) (argv : list string) :
  mode_of argv = Report ->
  script 0 hw environ ltr argv start
  = (1%Z,
     mkWorld (init_trace ltr ++ init_calls
              ++ [Call ThermalZone0; Call GetTemperature; Call GetHumidity])
             []).
Proof.
  intros Hmode. rewrite script_start, main_dispatch, Hmode.
  cbn [behaviour]. unfold fetch. rewrite run_bind, read_init_run. cbn beta iota.
  now destruct ltr.
Qed.

Lemma report_without_samples_witness :
  mode_of ["enviro"%string] = Report /\
  (script 0 bench ∅ true ["enviro"%string] start).1 = 1%Z.
Proof.
  split; [reflexivity |].
  now rewrite (report_without_samples bench ∅ true ["enviro"%string] eq_refl).
Defined.

(** ** Calibration in binary64 *)

Section Binary64Calibration.
Import PrimFloat.

Lemma binary64_ltb_leb (x y : float) : ltb x y = true -> leb x y = true.
Proof.
  rewrite FloatAxioms.ltb_spec, FloatAxioms.leb_spec.
  unfold SpecFloat.SFltb, SpecFloat.SFleb.
  destruct (SpecFloat.SFcompare _ _) as [[] |]; congruence.
Qed.

Lemma SF64sub_nan_r (x : SpecFloat.spec_float) :
  FloatAxioms.SF64sub x SpecFloat.S754_nan = SpecFloat.S754_nan.
Proof. now destruct x. Qed.

Lemma SF64mul_nan_r (x : SpecFloat.spec_float) :
  FloatAxioms.SF64mul x SpecFloat.S754_nan = SpecFloat.S754_nan.
Proof. now destruct x. Qed.

Lemma SF64div_nan_l (x : SpecFloat.spec_float) :
  FloatAxioms.SF64div SpecFloat.S754_nan x = SpecFloat.S754_nan.
Proof. now destruct x. Qed.

(** X13. In binary64 the clamp holds for every input, infinities and NaN
    included: [correct_humidity] returns either 100 or a value below 100,
    and the result compares [<= 100].  A NaN reading is not passed on: since
    [nan < 100] is false, [min] keeps its first argument and the humidity
    printed is 100.  The literal checks hold without rounding:
    [correct_humidity(100, 20, 20)] is 100 and
    [correct_temperature(20.0, 42.5)] is 10. *)
Theorem binary64_humidity_clamped :
  (forall H_raw T_raw T_corr : float,
     let h := Binary64.correct_humidity H_raw T_raw T_corr in
     (h = 100%float \/ ltb h 100 = true) /\ leb h 100 = true) /\
  (forall T_raw T_corr : float, Binary64.correct_humidity nan T_raw T_corr = 100%float) /\
  Binary64.correct_humidity 100 20 20 = 100%float /\
  Binary64.correct_temperature 20 42.5 = 10%float.
Proof.
  split; [| split; [| split]].
  - intros H_raw T_raw T_corr h. subst h.
    unfold Binary64.correct_humidity, Binary64.py_min.
    destruct (ltb _ 100) eqn:Hlt.
    + split; [right; exact Hlt | now apply binary64_ltb_leb].
    + split; [left; reflexivity | vm_compute; reflexivity].
  - intros T_raw T_corr. unfold Binary64.correct_humidity, Binary64.py_min.
    destruct (ltb _ 100) eqn:Hlt; [| reflexivity].
    exfalso. revert Hlt.
    rewrite FloatAxioms.ltb_spec.
    repeat first [ rewrite FloatAxioms.sub_spec | rewrite FloatAxioms.mul_spec
                 | rewrite FloatAxioms.div_spec ].
    change (FloatOps.Prim2SF nan) with SpecFloat.S754_nan.
    repeat first [rewrite SF64sub_nan_r | rewrite SF64mul_nan_r | rewrite SF64div_nan_l].
    discriminate.
  - vm_compute. reflexivity.
  - vm_compute. reflexivity.
Qed.

End Binary64Calibration.
